(** * Sidekick: the worker / evaluator control loop

    A shallow embedding of [testing_stage/SideKick(Ugraded)/sidekick.py]
    (the [Sidekick] class: [worker], [worker_router], [format_conversation],
    [evaluator], [route_based_on_evaluation], [build_graph], [run_superstep],
    [cleanup]), of [free_resources] from [app.py] and of the calendar
    functions of [sidekick_tool.py].

    Conventions of the embedding.
    - Message contents are strings; a message is one of the four LangChain
      classes the code distinguishes with [isinstance].
    - The language models, the tools and the clock are collaborators of the
      program: they are fields of the [Sidekick] record (Python's [self]) or
      section variables, and every theorem quantifies over them.
    - A Python exception is a [Raise] result.  Calls to collaborators are
      logged as [Event]s, so that "is invoked" is a statement about the log.
    - A model answers as a function of the prompt it is sent.
    - The state graph engine is outside the repository.  It is modelled by
      its contract only: a node's returned dict is merged into the state
      ([messages] through the appending reducer, other keys by overwrite),
      edges are followed as [build_graph] declares them, and a run that
      has executed as many nodes as the recursion limit allows without
      reaching [END] raises [GraphRecursionError].  The [State] TypedDict
      does not declare [iterations], and the engine drops a key the schema
      does not declare: the program is the instance [false] of the
      parameter [engine_keeps_undeclared], at the default limit
      [recursion_limit]. *)

From Stdlib Require Import String Ascii List ZArith Bool Lia.
Import ListNotations.

Local Open Scope Z_scope.

Infix "+++" := String.append (right associativity, at level 60).

(** ** Python values *)

Inductive Exn :=
| IndexError
| KeyError (key : string)
| ValueError (what : string)
| RuntimeError (what : string)
| TypeError (what : string)
| HttpError (content : string)
| GraphRecursionError
| ExternalError (what : string).

(** [str(e)] *)
Definition exn_str (e : Exn) : string :=
  match e with
  | IndexError => "list index out of range"%string
  | KeyError k => "'" +++ k +++ "'"
  | ValueError w | RuntimeError w | TypeError w | ExternalError w => w
  | HttpError c => c
  | GraphRecursionError =>
      "Recursion limit reached without hitting a stop condition."%string
  end.

Inductive Result (A : Type) :=
| Ok (a : A)
| Raise (e : Exn).
Arguments Ok {A} a.
Arguments Raise {A} e.

(** How a run of the graph ends: at [END], or with an exception. *)
Inductive Outcome (A : Type) :=
| Finished (a : A)
| Raised (e : Exn).
Arguments Finished {A} a.
Arguments Raised {A} e.

Definition nl : string := String "010"%char EmptyString.
Definition dq : string := String "034"%char EmptyString.

(** Truthiness of a [str]: only the empty string is falsy. *)
Definition truthy (s : string) : bool :=
  match s with EmptyString => false | String _ _ => true end.

(** [x or default] on an optional string. *)
Definition str_or (x : option string) (default : string) : string :=
  match x with
  | Some s => if truthy s then s else default
  | None => default
  end.

(** [state.get(key) or 0] on an optional integer. *)
Definition int_or0 (x : option Z) : Z :=
  match x with Some n => n | None => 0 end.

(** [sub in s] for strings. *)
Fixpoint contains (sub s : string) : bool :=
  String.prefix sub s ||
  match s with
  | EmptyString => false
  | String _ rest => contains sub rest
  end.

Definition lower_char (c : ascii) : ascii :=
  let n := nat_of_ascii c in
  if (Nat.leb 65 n && Nat.leb n 90)%bool then ascii_of_nat (n + 32) else c.

(** [str.lower] on the ASCII letters. *)
Fixpoint lower (s : string) : string :=
  match s with
  | EmptyString => EmptyString
  | String c rest => String (lower_char c) (lower rest)
  end.

(** [xs[-1]] and [xs[-2]]. *)
Definition index_last {A} (xs : list A) : Result A :=
  match rev xs with
  | x :: _ => Ok x
  | [] => Raise IndexError
  end.

Definition index_penultimate {A} (xs : list A) : Result A :=
  match rev xs with
  | _ :: x :: _ => Ok x
  | _ => Raise IndexError
  end.

(** ** Data model *)

Record ToolCall := {
  tc_name : string;
  tc_args : string;
  tc_id : string
}.

(** What a chat model returns: an [AIMessage]. *)
Record AIReply := {
  reply_content : string;
  reply_tool_calls : list ToolCall
}.

Inductive Message :=
| SystemMessage (content : string)
| HumanMessage (content : string)
| AIMessage (content : string) (tool_calls : list ToolCall)
| ToolMessage (content : string) (tool_call_id : string).

Definition content (m : Message) : string :=
  match m with
  | SystemMessage c | HumanMessage c | AIMessage c _ | ToolMessage c _ => c
  end.

Definition is_system (m : Message) : bool :=
  match m with SystemMessage _ => true | _ => false end.

Definition message_of_reply (r : AIReply) : Message :=
  AIMessage (reply_content r) (reply_tool_calls r).

(** The keys of the state dict that the code reads or writes.  [iterations]
    is read with [state.get], so it may be absent; the [State] TypedDict of
    the source does not declare it (it declares an unused [subtasks]). *)
Record State := {
  messages : list Message;
  success_criteria : string;
  feedback_on_work : option string;
  success_criteria_met : bool;
  user_input_needed : bool;
  iterations : option Z
}.

(** [EvaluatorOutput] *)
Record EvaluatorOutput := {
  feedback : string;
  eo_success_criteria_met : bool;
  eo_user_input_needed : bool
}.

(** The dict a node returns: every key is optional. *)
Record Update := {
  upd_messages : list Message;
  upd_success_criteria : option string;
  upd_iterations : option Z;
  upd_feedback_on_work : option (option string);
  upd_success_criteria_met : option bool;
  upd_user_input_needed : option bool
}.

Inductive Node := WORKER | TOOLS | EVALUATOR | END.

Definition Node_eqb (a b : Node) : bool :=
  match a, b with
  | WORKER, WORKER | TOOLS, TOOLS | EVALUATOR, EVALUATOR | END, END => true
  | _, _ => false
  end.

(** ** Effects: a log of collaborator calls, and exceptions *)

Inductive Event :=
| EnterNode (n : Node)
| InvokeWorkerLLM (prompt : list Message)
| InvokeStructuredEvaluator (prompt : list Message)
| InvokeRawEvaluator (prompt : list Message)
| InvokeTool (call : ToolCall).

Definition M (A : Type) : Type := (list Event * Result A)%type.

Definition ret {A} (a : A) : M A := ([], Ok a).

Definition raise {A} (e : Exn) : M A := ([], Raise e).

Definition bind {A B} (m : M A) (f : A -> M B) : M B :=
  match m with
  | (log, Ok a) => let (log', r) := f a in (log ++ log', r)
  | (log, Raise e) => (log, Raise e)
  end.

(** [try: m  except Exception: handler] *)
Definition try_except {A} (m : M A) (handler : Exn -> M A) : M A :=
  match m with
  | (log, Ok a) => (log, Ok a)
  | (log, Raise e) => let (log', r) := handler e in (log ++ log', r)
  end.

Definition emit (e : Event) : M unit := ([e], Ok tt).

Definition lift {A} (r : Result A) : M A := ([], r).

Notation "x <- m ;; k" := (bind m (fun x => k))
  (at level 61, m at next level, right associativity).
Notation "m ;;; k" := (bind m (fun _ => k))
  (at level 61, right associativity).

(** The [Sidekick] instance: the collaborators [setup] binds to [self], and
    the two resource handles [cleanup] looks at. *)
Record Sidekick := {
  worker_llm_with_tools : list Message -> Result AIReply;
  evaluator_llm_with_output : list Message -> Result EvaluatorOutput;
  evaluator_llm : list Message -> Result string;
  tools : ToolCall -> string;
  browser : option nat;
  playwright : option nat
}.


Definition with_messages (st : State) (ms : list Message) : State := {|
  messages := ms;
  success_criteria := success_criteria st;
  feedback_on_work := feedback_on_work st;
  success_criteria_met := success_criteria_met st;
  user_input_needed := user_input_needed st;
  iterations := iterations st
|}.

Module Worker.

(** Lines 127-152 of [worker]: the text of the system message. *)
Definition system_message (now : string) (st : State) : string :=
  ("You are a helpful assistant that can use tools to complete tasks." +++ nl +++
   "You keep working on a task until either you have a question or clarification for the user, " +++
   "or the success criteria is met." +++ nl +++
   "You have many tools to help you, including tools to browse the internet, navigating and retrieving web pages." +++ nl +++
   "You have a tool to run python code, but note that you would need to include a print() statement " +++
   "if you wanted to receive output." +++ nl +++
   "The current date and time is " +++ now +++ nl +++ nl +++
   "This is the success criteria:" +++ nl +++
   success_criteria st +++ nl +++
   "You should reply either with a question for the user about this assignment, or with your final response." +++ nl +++
   "If you have a question for the user, you need to reply by clearly stating your question. " +++
   "An example might be:" +++ nl +++ nl +++
   "Question: please clarify whether you want a summary or a detailed answer" +++ nl +++ nl +++
   "If you've finished, reply with the final answer, and don't ask a question; simply reply with the answer." +++ nl)
  +++
  (if truthy (str_or (feedback_on_work st) EmptyString) then
     nl +++ "Previously you thought you completed the assignment, but your reply was rejected " +++
     "because the success criteria was not met." +++ nl +++
     "Here is the feedback on why this was rejected:" +++ nl +++
     str_or (feedback_on_work st) EmptyString +++ nl +++
     "With this feedback, please continue the assignment, ensuring that you meet the " +++
     "success criteria or have a question for the user."
   else EmptyString).

(** The body of the [for] loop (lines 158-160): a system message has its
    content assigned, any other message is left alone. *)
Definition set_system_content (text : string) (m : Message) : Message :=
  match m with
  | SystemMessage _ => SystemMessage text
  | _ => m
  end.

(** The list [state["messages"]] after the loop.  The loop assigns to the
    message objects themselves, so this is also what the state holds
    afterwards. *)
Definition overwrite_system (text : string) (ms : list Message) : list Message :=
  map (set_system_content text) ms.

(** [found_system_message] after the loop. *)
Definition found_system_message (ms : list Message) : bool :=
  existsb is_system ms.

(** The local variable [messages] after lines 155-163. *)
Definition local_messages (text : string) (ms : list Message) : list Message :=
  if found_system_message ms
  then overwrite_system text ms
  else SystemMessage text :: overwrite_system text ms.

End Worker.

Section Graph.

Variable self : Sidekick.

(** [datetime.now().strftime('%Y-%m-%d %H:%M:%S')] *)
Variable now : string.

(** Whether the engine stores a key that the [State] TypedDict does not
    declare.  [iterations] is such a key, and the engine the program runs
    on drops it: the program is the instance [false].  The instance [true]
    is the engine the comments of [worker] and [route_based_on_evaluation]
    take for granted. *)
Variable engine_keeps_undeclared : bool.

(** [Sidekick.worker].  The result is the message list of the state after
    the in-place assignments, and the returned dict: [None] when the
    function falls off its end. *)
Definition worker (st : State) : M (list Message * option Update) :=
  let system_message := Worker.system_message now st in
  let found_system_message := Worker.found_system_message (messages st) in
  let stored := Worker.overwrite_system system_message (messages st) in
  let messages := Worker.local_messages system_message (messages st) in
  if negb found_system_message then
    emit (InvokeWorkerLLM messages) ;;;
    response <- lift (worker_llm_with_tools self messages) ;;
    let iterations := int_or0 (iterations st) + 1 in
    ret (stored,
         Some {| upd_messages := [message_of_reply response];
                 upd_success_criteria := None;
                 upd_iterations := Some iterations;
                 upd_feedback_on_work := None;
                 upd_success_criteria_met := None;
                 upd_user_input_needed := None |})
  else ret (stored, None).

(** [hasattr(m, "tool_calls") and m.tool_calls] *)
Definition has_tool_calls (m : Message) : bool :=
  match m with
  | AIMessage _ (_ :: _) => true
  | _ => false
  end.

(** [Sidekick.worker_router] *)
Definition worker_router (st : State) : Result string :=
  match index_last (messages st) with
  | Raise e => Raise e
  | Ok last_message =>
      if has_tool_calls last_message then Ok "tools"%string
      else Ok "evaluator"%string
  end.

(** [Sidekick.format_conversation] *)
Definition format_message (m : Message) : string :=
  match m with
  | HumanMessage c => "User: " +++ c +++ nl
  | AIMessage c _ => "Assistant: " +++ (if truthy c then c else "[Tools use]"%string) +++ nl
  | _ => EmptyString
  end.

Fixpoint format_loop (conversation : string) (ms : list Message) : string :=
  match ms with
  | [] => conversation
  | m :: rest => format_loop (conversation +++ format_message m) rest
  end.

Definition format_conversation (ms : list Message) : string :=
  format_loop ("Conversation history:" +++ nl +++ nl) ms.

(** The two prompt messages [evaluator] builds (lines 194-233). *)
Definition evaluator_system_message : string :=
  "You are an evaluator that determines if a task has been completed successfully by an Assistant." +++ nl +++
  "Assess the Assistant's last response based on the given criteria. Respond with your feedback, " +++
  "and with your decision on whether the success criteria has been met, and whether more input is needed from the user.".

Definition evaluator_user_message (st : State) (last_response : string) : string :=
  ("You are evaluating a conversation between the User and Assistant. You decide what action to take " +++
   "based on the last response from the Assistant." +++ nl +++ nl +++
   "The entire conversation with the assistant, with the user's original request and all replies, is:" +++ nl +++
   format_conversation (messages st) +++ nl +++ nl +++
   "The success criteria for this assignment is:" +++ nl +++
   success_criteria st +++ nl +++ nl +++
   "And the final response from the Assistant that you are evaluating is:" +++ nl +++
   last_response +++ nl +++ nl +++
   "Respond with your feedback, and decide if the success criteria is met by this response. " +++
   "Also, decide if more user input is required, either because the assistant has a question, needs clarification, or seems to be stuck and unable to answer without help." +++ nl +++ nl +++
   "The Assistant has access to a tool to write files. If the Assistant says they have written a file, then you can assume they have done so." +++ nl +++
   "Overall you should give the Assistant the benefit of the doubt if they say they've done something. " +++
   "But you should reject if you feel that more work should go into this." +++ nl)
  +++
  (if truthy (str_or (feedback_on_work st) EmptyString) then
     "Also, note that in a prior attempt from the Assistant, you provided this feedback: " +++
     str_or (feedback_on_work st) EmptyString +++ nl +++
     "If you're seeing the Assistant repeating the same mistakes, then consider responding that user input is required."
   else EmptyString)
  +++
  (nl +++ nl +++ "IMPORTANT: Respond with ONLY a single valid JSON object matching the schema:" +++ nl +++
   "{" +++ dq +++ "feedback" +++ dq +++ ": string, " +++ dq +++ "success_criteria_met" +++ dq +++
   ": boolean, " +++ dq +++ "user_input_needed" +++ dq +++ ": boolean}" +++ nl +++
   "Do not include any explanatory text, bullet points, or markdown. Output must be parseable JSON and only the JSON.").

Definition evaluator_messages (st : State) (last_response : string) : list Message :=
  [SystemMessage evaluator_system_message;
   HumanMessage (evaluator_user_message st last_response)].

(** The condition of line 251, as it is written. *)
Definition user_needed (raw_text : string) : bool :=
  let lower := lower raw_text in
  contains "?" raw_text
  && (contains "please" lower || contains "clarify" lower || contains "?" raw_text).

(** The [except] branch of [evaluator] (lines 245-258). *)
Definition evaluator_fallback (prompt : list Message) : M EvaluatorOutput :=
  emit (InvokeRawEvaluator prompt) ;;;
  raw_text <- lift (evaluator_llm self prompt) ;;
  ret {| feedback := raw_text;
         eo_success_criteria_met := false;
         eo_user_input_needed := user_needed raw_text |}.

(** The [try] statement of [evaluator] (lines 240-258). *)
Definition eval_result (prompt : list Message) : M EvaluatorOutput :=
  try_except
    (emit (InvokeStructuredEvaluator prompt) ;;;
     lift (evaluator_llm_with_output self prompt))
    (fun _ => evaluator_fallback prompt).

(** [new_state] of lines 260-267. *)
Definition new_state (r : EvaluatorOutput) : Update := {|
  upd_messages := [AIMessage ("Evaluator Feedback on this answer: " +++ feedback r) []];
  upd_success_criteria := None;
  upd_iterations := None;
  upd_feedback_on_work := Some (Some (feedback r));
  upd_success_criteria_met := Some (eo_success_criteria_met r);
  upd_user_input_needed := Some (eo_user_input_needed r)
|}.

(** [Sidekick.evaluator] *)
Definition evaluator (st : State) : M Update :=
  last_message <- lift (index_last (messages st)) ;;
  let last_response := content last_message in
  r <- eval_result (evaluator_messages st last_response) ;;
  ret (new_state r).

(** [Sidekick.route_based_on_evaluation] *)
Definition max_iterations : Z := 10.

Definition route_based_on_evaluation (st : State) : string :=
  if max_iterations <=? int_or0 (iterations st) then "END"%string
  else if success_criteria_met st || user_input_needed st then "END"%string
  else "worker"%string.

(** ** The state graph of [build_graph] *)

(** The prebuilt tool node: it runs every call of the last message and
    returns one tool message per call. *)
Definition tool_node (st : State) : M Update :=
  last_message <- lift (index_last (messages st)) ;;
  match last_message with
  | AIMessage _ calls =>
      (map InvokeTool calls,
       Ok {| upd_messages := map (fun c => ToolMessage (tools self c) (tc_id c)) calls;
             upd_success_criteria := None;
             upd_iterations := None;
             upd_feedback_on_work := None;
             upd_success_criteria_met := None;
             upd_user_input_needed := None |})
  | _ => raise (ValueError "Last message is not an AIMessage")
  end.

(** Merging a returned dict into the state.  [messages] has the appending
    reducer ([add_messages]); every other key is overwritten.  A key outside
    the declared schema is stored only by an engine that keeps such keys. *)
Definition apply_update (st : State) (u : Update) : State := {|
  messages := messages st ++ upd_messages u;
  success_criteria :=
    match upd_success_criteria u with Some c => c | None => success_criteria st end;
  feedback_on_work :=
    match upd_feedback_on_work u with Some f => f | None => feedback_on_work st end;
  success_criteria_met :=
    match upd_success_criteria_met u with Some b => b | None => success_criteria_met st end;
  user_input_needed :=
    match upd_user_input_needed u with Some b => b | None => user_input_needed st end;
  iterations :=
    match upd_iterations u with
    | Some n => if engine_keeps_undeclared then Some n else iterations st
    | None => iterations st
    end
|}.

(** The path maps of the two [add_conditional_edges] calls. *)
Definition worker_edges (label : string) : Result Node :=
  if (label =? "tools")%string then Ok TOOLS
  else if (label =? "evaluator")%string then Ok EVALUATOR
  else Raise (KeyError label).

Definition evaluator_edges (label : string) : Result Node :=
  if (label =? "worker")%string then Ok WORKER
  else if (label =? "END")%string then Ok END
  else Raise (KeyError label).

(** Running one node on the state. *)
Definition run_node (n : Node) (st : State) : M State :=
  match n with
  | WORKER =>
      r <- worker st ;;
      let st' := with_messages st (fst r) in
      ret (match snd r with Some u => apply_update st' u | None => st' end)
  | TOOLS => u <- tool_node st ;; ret (apply_update st u)
  | EVALUATOR => u <- evaluator st ;; ret (apply_update st u)
  | END => ret st
  end.

(** The edge taken out of a node, on the state the node left. *)
Definition next_node (n : Node) (st : State) : Result Node :=
  match n with
  | WORKER =>
      match worker_router st with
      | Ok label => worker_edges label
      | Raise e => Raise e
      end
  | TOOLS => Ok WORKER
  | EVALUATOR => evaluator_edges (route_based_on_evaluation st)
  | END => Ok END
  end.

(** The engine's loop.  [steps] is the recursion limit: the number of node
    executions a run may make; a run that needs one more raises
    [GraphRecursionError]. *)
Fixpoint run_graph (steps : nat) (n : Node) (st : State) : list Event * Outcome State :=
  match n with
  | END => ([], Finished st)
  | _ =>
      match steps with
      | O => ([], Raised GraphRecursionError)
      | S steps' =>
          match run_node n st with
          | (log, Raise e) => (EnterNode n :: log, Raised e)
          | (log, Ok st') =>
              match next_node n st' with
              | Raise e => (EnterNode n :: log, Raised e)
              | Ok n' =>
                  let (log', out) := run_graph steps' n' st' in
                  (EnterNode n :: log ++ log', out)
              end
          end
      end
  end.

Definition empty_state : State := {|
  messages := [];
  success_criteria := EmptyString;
  feedback_on_work := None;
  success_criteria_met := false;
  user_input_needed := false;
  iterations := None
|}.

(** [graph.ainvoke(state, config)]: the input dict is merged into what the
    checkpointer holds for the thread, and the graph runs from its entry
    edge [START -> worker]. *)
Definition turn_state (saved : option State) (input : Update) : State :=
  apply_update (match saved with Some s => s | None => empty_state end) input.

Definition ainvoke (steps : nat) (saved : option State) (input : Update)
  : list Event * Outcome State :=
  run_graph steps WORKER (turn_state saved input).

(** ** [run_superstep] *)

(** The [message] argument: the text of the chat box, or a list of
    messages. *)
Inductive Payload :=
| Text (s : string)
| Messages (ms : list Message).

(** An entry of the chat history, [{"role": ..., "content": ...}]. *)
Record ChatEntry := {
  role : string;
  entry_content : Payload
}.

(** What the reducer makes of the value under ["messages"]. *)
Definition convert_to_messages (p : Payload) : list Message :=
  match p with
  | Text s => [HumanMessage s]
  | Messages ms => ms
  end.

(** The dict [state] of lines 317-325. *)
Definition superstep_state (message : Payload) (criteria : option string) : Update := {|
  upd_messages := convert_to_messages message;
  upd_success_criteria := Some (str_or criteria "The answer should be clear and accurate");
  upd_iterations := Some 0;
  upd_feedback_on_work := Some None;
  upd_success_criteria_met := Some false;
  upd_user_input_needed := Some false
|}.

(** The engine's default recursion limit; [run_superstep] sets none. *)
Definition recursion_limit : nat := 25.

(** The messages a checkpoint holds for the thread. *)
Definition stored_messages (saved : option State) : list Message :=
  match saved with Some s => messages s | None => [] end.

(** The value of [message] when the run is over.  A string cannot change.
    A list of messages is a list of the caller's own objects, and the state
    holds the same objects after the stored ones: what [worker] assigns to
    the content of a system message of the state, it assigns to the
    caller's message. *)
Definition held_payload (message : Payload) (saved : option State) (result : State)
  : Payload :=
  match message with
  | Text s => Text s
  | Messages ms =>
      Messages (firstn (length ms)
                  (skipn (length (stored_messages saved)) (messages result)))
  end.

Definition run_superstep (saved : option State)
    (message : Payload) (criteria : option string) (history : list ChatEntry)
  : list Event * Outcome (list ChatEntry) :=
  let state := superstep_state message criteria in
  match ainvoke recursion_limit saved state with
  | (log, Finished result) =>
      let user := {| role := "user";
                     entry_content := held_payload message saved result |} in
      match index_penultimate (messages result) with
      | Raise e => (log, Raised e)
      | Ok m2 =>
          let reply := {| role := "assistant"; entry_content := Text (content m2) |} in
          match index_last (messages result) with
          | Raise e => (log, Raised e)
          | Ok m1 =>
              let feedback := {| role := "assistant"; entry_content := Text (content m1) |} in
              (log, Finished (history ++ [user; reply; feedback]))
          end
      end
  | (log, Raised e) => (log, Raised e)
  end.

End Graph.

(** ** Teardown: [Sidekick.cleanup] and [free_resources] *)

Module Teardown.

Inductive Coroutine :=
| BrowserClose (handle : nat)
| PlaywrightStop (handle : nat).

(** What teardown does to the outside world, in order. *)
Inductive Action :=
| CreateTask (c : Coroutine)
| AsyncioRun (c : Coroutine)
| Printed (text : string).

(** The asyncio runtime and the browser driver.  [asyncio_run] is the
    outcome of running a coroutine to completion; it may depend on what was
    done before (a browser that is already closed, say). *)
Record Runtime := {
  loop_running : bool;
  asyncio_run : list Action -> Coroutine -> Result unit
}.

(** [Sidekick.cleanup].  It threads the list of actions done so far, and
    returns the instance as it leaves it: no attribute is assigned. *)
Definition cleanup (rt : Runtime) (done : list Action) (self : Sidekick)
  : Sidekick * list Action * Result unit :=
  match browser self with
  | None => (self, done, Ok tt)
  | Some b =>
      if loop_running rt then
        let done1 := done ++ [CreateTask (BrowserClose b)] in
        match playwright self with
        | Some p => (self, done1 ++ [CreateTask (PlaywrightStop p)], Ok tt)
        | None => (self, done1, Ok tt)
        end
      else
        let done1 := done ++ [AsyncioRun (BrowserClose b)] in
        match asyncio_run rt done (BrowserClose b) with
        | Raise e => (self, done1, Raise e)
        | Ok _ =>
            match playwright self with
            | Some p =>
                (self, done1 ++ [AsyncioRun (PlaywrightStop p)],
                 asyncio_run rt done1 (PlaywrightStop p))
            | None => (self, done1, Ok tt)
            end
        end
  end.

(** [free_resources] of [app.py]: it has no way to raise. *)
Definition free_resources (rt : Runtime) (done : list Action) (sidekick : option Sidekick)
  : option Sidekick * list Action :=
  let done0 := done ++ [Printed "Cleaning up"] in
  match sidekick with
  | None => (None, done0)
  | Some s =>
      match cleanup rt done0 s with
      | (s', done1, Ok _) => (Some s', done1)
      | (s', done1, Raise e) =>
          (Some s', done1 ++ [Printed ("Exception during cleanup: " +++ exn_str e)])
      end
  end.

End Teardown.

(** ** The calendar functions of [sidekick_tool.py] *)

Module Calendar.

(** An event of the listing: a dict whose keys may be missing. *)
Record EventTime := {
  dateTime : option string;
  date : option string
}.

Record CalendarEvent := {
  start : option EventTime;
  summary : option string
}.

Record EventBody := {
  body_summary : string;
  body_description : string;
  body_start : string * string;
  body_end : string * string
}.

(** The environment and the Google client: the token file, the two API
    requests, the clock. *)
Record Google := {
  GOOGLE_CALENDAR_ID : option string;
  _get_calendar_service : Result unit;
  events_insert : string -> EventBody -> Result (option string);
  events_list : string -> string -> Z -> Result (option (list CalendarEvent));
  utcnow_isoformat : string
}.

(** [os.getenv("GOOGLE_CALENDAR_ID", "primary")] *)
Definition env_calendar_id (g : Google) : string :=
  match GOOGLE_CALENDAR_ID g with Some v => v | None => "primary"%string end.

(** [f"{x}"] for a value that may be [None]. *)
Definition fmt (x : option string) : string :=
  match x with Some s => s | None => "None"%string end.

Definition create_calendar_event (g : Google)
    (summary start_iso end_iso description : string)
    (calendar_id : option string) (timezone : string) : Result string :=
  let cal_id := str_or calendar_id (env_calendar_id g) in
  match _get_calendar_service g with
  | Raise e => Raise e
  | Ok service =>
      let event := {| body_summary := summary;
                      body_description := description;
                      body_start := (start_iso, timezone);
                      body_end := (end_iso, timezone) |} in
      match events_insert g cal_id event with
      | Ok htmlLink => Ok ("Event created: " +++ fmt htmlLink)
      | Raise (HttpError content) => Ok ("Calendar API error: " +++ content)
      | Raise e => Ok ("Calendar API exception: " +++ exn_str e)
      end
  end.

(** The separator of line 127, byte for byte. *)
Definition separator : string :=
  " " +++
  String "195"%char (String "162"%char (String "226"%char (String "130"%char
  (String "172"%char (String "226"%char (String "128"%char (String "157"%char
  EmptyString))))))) +++ " ".

(** The body of the [for] loop of lines 125-127. *)
Definition event_line (evt : CalendarEvent) : Result string :=
  match start evt with
  | None => Raise (KeyError "start")
  | Some s =>
      let start :=
        match dateTime s with
        | Some d => Some d
        | None => date s
        end in
      match summary evt with
      | None => Raise (KeyError "summary")
      | Some title => Ok (fmt start +++ separator +++ title)
      end
  end.

Fixpoint event_lines (events : list CalendarEvent) : Result (list string) :=
  match events with
  | [] => Ok []
  | evt :: rest =>
      match event_line evt with
      | Raise e => Raise e
      | Ok line =>
          match event_lines rest with
          | Raise e => Raise e
          | Ok lines => Ok (line :: lines)
          end
      end
  end.

Definition list_upcoming_events (g : Google)
    (calendar_id : option string) (max_results : Z) : Result string :=
  let cal_id := str_or calendar_id (env_calendar_id g) in
  match _get_calendar_service g with
  | Raise e => Raise e
  | Ok service =>
      let now := utcnow_isoformat g +++ "Z" in
      match events_list g cal_id now max_results with
      | Raise e => Raise e
      | Ok items =>
          match items with
          | None | Some [] => Ok "No upcoming events found."%string
          | Some events =>
              match event_lines events with
              | Raise e => Raise e
              | Ok lines => Ok (String.concat nl lines)
              end
          end
      end
  end.

End Calendar.

(** ** Counting in the event log *)

Definition is_enter (n : Node) (e : Event) : bool :=
  match e with
  | EnterNode m => Node_eqb n m
  | _ => false
  end.

(** How many times node [n] was executed. *)
Definition entries (n : Node) (log : list Event) : nat :=
  length (filter (is_enter n) log).

Definition is_worker_call (e : Event) : bool :=
  match e with InvokeWorkerLLM _ => true | _ => false end.

(** How many times the worker model was invoked. *)
Definition worker_calls (log : list Event) : nat :=
  length (filter is_worker_call log).

Definition count_system (ms : list Message) : nat :=
  length (filter is_system ms).

(** The messages [format_conversation] renders. *)
Definition is_visible (m : Message) : bool :=
  match m with
  | HumanMessage _ | AIMessage _ _ => true
  | _ => false
  end.

(** Concatenation of a list of strings. *)
Definition join (parts : list string) : string :=
  fold_right String.append EmptyString parts.

(** ** Concrete collaborators and inputs *)

Module Examples.

Definition clock : string := "2025-05-20 15:00:00".

Definition search_call : ToolCall :=
  {| tc_name := "search"; tc_args := "capital of France"; tc_id := "call_1" |}.

Definition is_tool_message (m : Message) : bool :=
  match m with ToolMessage _ _ => true | _ => false end.

(** A worker model that keeps searching until it has seen ten results. *)
Definition searching_llm (prompt : list Message) : Result AIReply :=
  if (length (filter is_tool_message prompt) <? 10)%nat
  then Ok {| reply_content := EmptyString; reply_tool_calls := [search_call] |}
  else Ok {| reply_content := "Paris"; reply_tool_calls := [] |}.

Definition answering_llm (prompt : list Message) : Result AIReply :=
  Ok {| reply_content := "4"; reply_tool_calls := [] |}.

Definition accepting_evaluator (prompt : list Message) : Result EvaluatorOutput :=
  Ok {| feedback := "The answer is numeric.";
        eo_success_criteria_met := true;
        eo_user_input_needed := false |}.

Definition rejecting_evaluator (prompt : list Message) : Result EvaluatorOutput :=
  Ok {| feedback := "Not yet.";
        eo_success_criteria_met := false;
        eo_user_input_needed := false |}.

Definition unparsable_evaluator (prompt : list Message) : Result EvaluatorOutput :=
  Raise (ValueError "Invalid json output").

Definition raw_question (prompt : list Message) : Result string :=
  Ok "Is the task finished?"%string.

Definition make (llm : list Message -> Result AIReply)
    (structured : list Message -> Result EvaluatorOutput)
    (raw : list Message -> Result string) : Sidekick := {|
  worker_llm_with_tools := llm;
  evaluator_llm_with_output := structured;
  evaluator_llm := raw;
  tools := fun _ => "Paris is the capital of France."%string;
  browser := Some 1%nat;
  playwright := Some 2%nat
|}.

Definition searching_sidekick : Sidekick :=
  make searching_llm accepting_evaluator raw_question.

Definition answering_sidekick : Sidekick :=
  make answering_llm accepting_evaluator raw_question.

Definition rejected_sidekick : Sidekick :=
  make answering_llm rejecting_evaluator raw_question.

Definition unparsable_sidekick : Sidekick :=
  make answering_llm unparsable_evaluator raw_question.

Definition state_of (ms : list Message) : State := {|
  messages := ms;
  success_criteria := "a numeric answer";
  feedback_on_work := None;
  success_criteria_met := false;
  user_input_needed := false;
  iterations := Some 0
|}.

(** A history that already holds a system message. *)
Definition with_system : State :=
  state_of [SystemMessage "You are a helpful assistant."; HumanMessage "What is 2+2?"].

(** A history that holds two. *)
Definition with_two_systems : State :=
  state_of [SystemMessage "first"; SystemMessage "second"; HumanMessage "What is 2+2?"].

Definition answered : State :=
  state_of [HumanMessage "What is 2+2?"; AIMessage "4" []].

(** A history that ends in a tool result. *)
Definition after_tool : State :=
  state_of [HumanMessage "What is the capital of France?";
            AIMessage EmptyString [search_call];
            ToolMessage "Paris is the capital of France." "call_1"].

(** A history that ends in an assistant message, with a system message and
    a tool result the evaluator is not shown. *)
Definition after_answer : State :=
  state_of [SystemMessage "You are a helpful assistant.";
            HumanMessage "What is the capital of France?";
            AIMessage EmptyString [search_call];
            ToolMessage "Paris is the capital of France." "call_1";
            AIMessage "Paris" []].

Definition after_answer_visible : State :=
  state_of [HumanMessage "What is the capital of France?";
            AIMessage EmptyString [search_call];
            AIMessage "Paris" []].

(** A caller that hands [run_superstep] a list of messages. *)
Definition seeded : Payload :=
  Messages [SystemMessage "You are a helpful assistant.";
            HumanMessage "What is the capital of France?";
            AIMessage EmptyString [search_call]].

(** No event loop is running, and the driver refuses to close a browser
    that has been closed. *)
Definition closed_before (done : list Teardown.Action) : bool :=
  existsb (fun a =>
             match a with
             | Teardown.AsyncioRun (Teardown.BrowserClose _) => true
             | _ => false
             end) done.

Definition strict_runtime : Teardown.Runtime := {|
  Teardown.loop_running := false;
  Teardown.asyncio_run := fun done c =>
    match c with
    | Teardown.BrowserClose _ =>
        if closed_before done
        then Raise (ExternalError "Target page, context or browser has been closed")
        else Ok tt
    | Teardown.PlaywrightStop _ => Ok tt
    end
|}.

Definition looping_runtime : Teardown.Runtime := {|
  Teardown.loop_running := true;
  Teardown.asyncio_run := fun _ _ => Ok tt
|}.

(** The calendar API answers 401. *)
Definition unauthorized : Calendar.Google := {|
  Calendar.GOOGLE_CALENDAR_ID := None;
  Calendar._get_calendar_service := Ok tt;
  Calendar.events_insert := fun _ _ => Raise (HttpError "401 Unauthorized");
  Calendar.events_list := fun _ _ _ => Raise (HttpError "401 Unauthorized");
  Calendar.utcnow_isoformat := "2025-05-20T15:00:00"
|}.

(** The token file is missing. *)
Definition no_token : Calendar.Google := {|
  Calendar.GOOGLE_CALENDAR_ID := None;
  Calendar._get_calendar_service := Raise (ExternalError "No such file or directory: token.json");
  Calendar.events_insert := fun _ _ => Ok (Some "https://calendar.example/event"%string);
  Calendar.events_list := fun _ _ _ => Ok (Some []);
  Calendar.utcnow_isoformat := "2025-05-20T15:00:00"
|}.

(** The calendar holds an event without a title. *)
Definition untitled : Calendar.Google := {|
  Calendar.GOOGLE_CALENDAR_ID := None;
  Calendar._get_calendar_service := Ok tt;
  Calendar.events_insert := fun _ _ => Ok (Some "https://calendar.example/event"%string);
  Calendar.events_list := fun _ _ _ =>
    Ok (Some [ {| Calendar.start :=
                    Some {| Calendar.dateTime := Some "2025-05-21T09:00:00+00:00"%string;
                            Calendar.date := None |};
                  Calendar.summary := None |} ]);
  Calendar.utcnow_isoformat := "2025-05-20T15:00:00"
|}.

(** The calendar answers. *)
Definition working : Calendar.Google := {|
  Calendar.GOOGLE_CALENDAR_ID := None;
  Calendar._get_calendar_service := Ok tt;
  Calendar.events_insert := fun _ _ => Ok (Some "https://calendar.example/event"%string);
  Calendar.events_list := fun _ _ _ =>
    Ok (Some [ {| Calendar.start :=
                    Some {| Calendar.dateTime := None;
                            Calendar.date := Some "2025-05-21"%string |};
                  Calendar.summary := Some "Standup"%string |} ]);
  Calendar.utcnow_isoformat := "2025-05-20T15:00:00"
|}.

(** A caller that hands over its own system message. *)
Definition system_seeded : Payload :=
  Messages [SystemMessage "You are a helpful assistant."; HumanMessage "What is 2+2?"].

Definition question : Payload := Text "What is 2+2?".

Definition criteria : option string := Some "a numeric answer"%string.

End Examples.

(** ** Push notifications: [push] of [sidekick_tools.py] and [sidekick_tool.py] *)

Module Notify.

(** The module-level configuration and the HTTP client.  [requests_post]
    is the status code of the response, or the exception [requests.post]
    raised. *)
Record Ntfy := {
  NTFY_TOPIC : option string;
  NTFY_SERVER : option string;
  requests_post : string -> string -> Result Z
}.

(** [os.getenv("NTFY_SERVER", "https://ntfy.sh")] *)
Definition ntfy_server (env : Ntfy) : string :=
  match NTFY_SERVER env with Some v => v | None => "https://ntfy.sh"%string end.

(** A request that was sent: its URL and its body. *)
Inductive Request := Post (url : string) (data : string).

(** [push].  The response of the request is dropped. *)
Definition push (env : Ntfy) (text : string) : list Request * Result string :=
  match NTFY_TOPIC env with
  | Some (String c rest) =>
      let ntfy_url := ntfy_server env +++ "/" +++ String c rest in
      match requests_post env ntfy_url text with
      | Ok _ => ([Post ntfy_url text], Ok "success"%string)
      | Raise e => ([Post ntfy_url text], Raise e)
      end
  | _ => ([], Ok "error: NTFY_TOPIC not configured"%string)
  end.

End Notify.

(** ** The calendar form of [app.py] *)

Module EventForm.

(** [len(t.split(':'))] *)
Fixpoint split_len (t : string) : nat :=
  match t with
  | EmptyString => 1%nat
  | String c rest =>
      if Ascii.eqb c ":"%char then S (split_len rest) else split_len rest
  end.

(** [make_iso], local to [prepare_datetimes]. *)
Definition make_iso (d t : string) : string :=
  if negb (truthy d) || negb (truthy t) then EmptyString
  else
    let t_full := if Nat.eqb (split_len t) 3 then t else t +++ ":00" in
    d +++ "T" +++ t_full.

(** A parsed datetime: its wall-clock reading as a number, and the UTC
    offset when the string carried one (an aware datetime). *)
Record Datetime := {
  wall : Z;
  utcoffset : option Z
}.

(** [a <= b] on datetimes: two naive ones compare by their readings, two
    aware ones by their instants, and a naive with an aware one raises. *)
Definition le_datetime (a b : Datetime) : Result bool :=
  match utcoffset a, utcoffset b with
  | None, None => Ok (wall a <=? wall b)
  | Some oa, Some ob => Ok (wall a - oa <=? wall b - ob)
  | _, _ => Raise (TypeError "can't compare offset-naive and offset-aware datetimes")
  end.

Section Clock.

(** [datetime.fromisoformat], and the constructor [ZoneInfo], of which
    only success matters: it returns one object per key. *)
Variable fromisoformat : string -> Result Datetime.
Variable ZoneInfo : string -> Result unit.

Definition order_message : string :=
  "Error: End must be after start. Please correct the dates/times.".

Definition parse_message : string :=
  "Error parsing date/time. Ensure times are HH:MM or HH:MM:SS and dates are YYYY-MM-DD.".

(** [prepare_datetimes]: [(start_iso, end_iso, msg)]. *)
Definition prepare_datetimes (start_date start_time end_date end_time : string)
  : string * string * string :=
  let start_iso := make_iso start_date start_time in
  let end_iso := make_iso end_date end_time in
  let msg :=
    if truthy start_iso && truthy end_iso then
      match fromisoformat start_iso with
      | Raise _ => parse_message
      | Ok s =>
          match fromisoformat end_iso with
          | Raise _ => parse_message
          | Ok e =>
              match le_datetime e s with
              | Raise _ => parse_message
              | Ok true => order_message
              | Ok false => EmptyString
              end
          end
      end
    else EmptyString in
  (start_iso, end_iso, msg).

(** [fromisoformat(iso).replace(tzinfo=ZoneInfo(tz))].  Two datetimes that
    carry the same zone object compare by their wall-clock readings, so
    the reading is all that is kept. *)
Definition in_zone (tz iso : string) : Result Z :=
  match fromisoformat iso with
  | Raise x => Raise x
  | Ok d =>
      match ZoneInfo tz with
      | Raise x => Raise x
      | Ok _ => Ok (wall d)
      end
  end.

(** The test [e <= s] of [create_event_with_validation], with the inner
    [try] and its fallback to the datetimes as parsed. *)
Definition compared (start_iso end_iso tz : string) : Result bool :=
  match in_zone tz start_iso, in_zone tz end_iso with
  | Ok s, Ok e => Ok (e <=? s)
  | _, _ =>
      match fromisoformat start_iso with
      | Raise x => Raise x
      | Ok s =>
          match fromisoformat end_iso with
          | Raise x => Raise x
          | Ok e => le_datetime e s
          end
      end
  end.

(** The checks of [create_event_with_validation] before it calls the
    calendar: the text it returns early, or [None] when it goes on. *)
Definition validation_error (summary start_iso end_iso tz : string) : option string :=
  if negb (truthy summary) then
    Some "Error: Please provide an event title."%string
  else if negb (truthy start_iso) || negb (truthy end_iso) then
    Some "Error: Start and end datetimes must be prepared (choose dates and times)."%string
  else
    match compared start_iso end_iso tz with
    | Raise _ => Some "Error validating date/time values."%string
    | Ok true =>
        Some "Error: End must be after start. Please correct the inputs."%string
    | Ok false => None
    end.

(** [create_event_with_validation] *)
Definition create_event_with_validation (g : Calendar.Google)
    (summary start_iso end_iso desc tz : string) : Result string :=
  match validation_error summary start_iso end_iso tz with
  | Some message => Ok message
  | None =>
      Calendar.create_calendar_event g summary start_iso end_iso desc
        (Some (Calendar.env_calendar_id g)) tz
  end.

End Clock.

End EventForm.

(** ** Checkpoints and payloads *)

(** A checkpoint the engine of the program can have written: the counter
    is not in it. *)
Definition stored_by_engine (saved : option State) : Prop :=
  match saved with
  | Some s => iterations s = None
  | None => True
  end.

(** A payload whose system messages carry [text]. *)
Definition overwritten_payload (text : string) (p : Payload) : Payload :=
  match p with
  | Text s => Text s
  | Messages ms => Messages (Worker.overwrite_system text ms)
  end.

(** ** Reading a run's log and messages *)

(** The nodes a run executed, in order. *)
Fixpoint nodes (log : list Event) : list Node :=
  match log with
  | [] => []
  | EnterNode n :: rest => n :: nodes rest
  | _ :: rest => nodes rest
  end.

(** The edges of [build_graph] between executed nodes. *)
Definition edge_ok (a b : Node) : bool :=
  match a, b with
  | WORKER, TOOLS | WORKER, EVALUATOR | TOOLS, WORKER | EVALUATOR, WORKER => true
  | _, _ => false
  end.

Fixpoint path_ok (prev : Node) (ns : list Node) : bool :=
  match ns with
  | [] => true
  | n :: rest => edge_ok prev n && path_ok n rest
  end.

Definition starts_at (n : Node) (ns : list Node) : bool :=
  match ns with
  | [] => true
  | m :: rest => Node_eqb n m && path_ok m rest
  end.

(** A message with the content of a system message blanked. *)
Definition erase_system (m : Message) : Message :=
  match m with
  | SystemMessage _ => SystemMessage EmptyString
  | _ => m
  end.

(** A prompt sent to the worker model is well formed when its first
    message is a system message and no other is. *)
Definition well_prompted (e : Event) : bool :=
  match e with
  | InvokeWorkerLLM (SystemMessage _ :: rest) =>
      negb (Worker.found_system_message rest)
  | InvokeWorkerLLM _ => false
  | _ => true
  end.

(** A prompt sent to an evaluator model quotes an assistant's reply when
    the last message of the state it was built from is an assistant message
    without tool calls. *)
Definition quotes_reply (e : Event) : Prop :=
  match e with
  | InvokeStructuredEvaluator prompt | InvokeRawEvaluator prompt =>
      exists (st : State) (text : string),
        index_last (messages st) = Ok (AIMessage text [])
        /\ prompt = evaluator_messages st text
  | _ => True
  end.

(** Whether teardown stopped the playwright driver, or scheduled it. *)
Definition is_stop (a : Teardown.Action) : bool :=
  match a with
  | Teardown.CreateTask (Teardown.PlaywrightStop _)
  | Teardown.AsyncioRun (Teardown.PlaywrightStop _) => true
  | _ => false
  end.

(** An event of the listing that has both keys the loop reads. *)
Definition complete (evt : Calendar.CalendarEvent) : bool :=
  match Calendar.start evt, Calendar.summary evt with
  | Some _, Some _ => true
  | _, _ => false
  end.

(** ** More concrete collaborators and inputs *)

Module Cases.

Definition failing_llm (prompt : list Message) : Result AIReply :=
  Raise (ExternalError "rate limit exceeded").

Definition failing_sidekick : Sidekick :=
  Examples.make failing_llm Examples.accepting_evaluator Examples.raw_question.

Definition configured : Notify.Ntfy := {|
  Notify.NTFY_TOPIC := Some "sidekick-alerts"%string;
  Notify.NTFY_SERVER := None;
  Notify.requests_post := fun _ _ => Ok 500
|}.

(** A clock that reads the hour of "YYYY-MM-DDTHH:..." strings of one day,
    without offset, and a system that knows no time zone. *)
Definition hour_of (iso : string) : Result EventForm.Datetime :=
  match String.get 11 iso, String.get 12 iso with
  | Some a, Some b =>
      Ok {| EventForm.wall :=
              Z.of_nat (nat_of_ascii a - 48) * 10 + Z.of_nat (nat_of_ascii b - 48);
            EventForm.utcoffset := None |}
  | _, _ => Raise (ValueError "Invalid isoformat string")
  end.

Definition no_zone (tz : string) : Result unit :=
  Raise (KeyError tz).

(** The same clock for strings that end in "+HH:MM": those are aware. *)
Definition offset_clock (iso : string) : Result EventForm.Datetime :=
  match hour_of iso with
  | Raise x => Raise x
  | Ok d =>
      Ok {| EventForm.wall := EventForm.wall d;
            EventForm.utcoffset :=
              if contains "+" iso then Some 5 else None |}
  end.

End Cases.

(** * Properties *)

Ltac unfold_m :=
  unfold bind, ret, lift, emit, raise, try_except in *.

Section GraphFacts.

Variable self : Sidekick.
Variable now : string.

Lemma entries_app n l1 l2 :
  entries n (l1 ++ l2) = (entries n l1 + entries n l2)%nat.
Proof.
  unfold entries. rewrite filter_app, length_app. reflexivity.
Qed.

Lemma entries_enter n m log :
  entries n (EnterNode m :: log) =
  ((if Node_eqb n m then 1 else 0) + entries n log)%nat.
Proof.
  unfold entries. simpl. destruct (Node_eqb n m); reflexivity.
Qed.

Lemma overwrite_without_system text ms :
  Worker.found_system_message ms = false ->
  Worker.overwrite_system text ms = ms.
Proof.
  unfold Worker.found_system_message, Worker.overwrite_system.
  induction ms as [|m ms IH]; simpl; intro H.
  - reflexivity.
  - apply orb_false_iff in H. destruct H as [Hm Hms].
    rewrite (IH Hms). destruct m; simpl in *; congruence.
Qed.

Lemma found_system_app ms1 ms2 :
  Worker.found_system_message (ms1 ++ ms2) =
  Worker.found_system_message ms1 || Worker.found_system_message ms2.
Proof.
  unfold Worker.found_system_message. apply existsb_app.
Qed.

Lemma index_last_snoc {A} (xs : list A) (x : A) :
  index_last (xs ++ [x]) = Ok x.
Proof.
  unfold index_last. rewrite rev_app_distr. reflexivity.
Qed.

(** The log of one node has no entry marker of its own. *)
Lemma run_node_log keeps n st log r m :
  run_node self now keeps n st = (log, r) ->
  entries m log = 0%nat.
Proof.
  destruct n; simpl; unfold worker, tool_node, evaluator, eval_result,
    evaluator_fallback; unfold_m; intro H.
  - destruct (Worker.found_system_message (messages st)); simpl in H.
    + inversion H; reflexivity.
    + destruct (worker_llm_with_tools self _); inversion H; reflexivity.
  - destruct (index_last (messages st)) as [[]|]; simpl in H;
      inversion H; subst; try reflexivity.
    unfold entries. rewrite app_nil_r.
    induction tool_calls; simpl; auto.
  - destruct (index_last (messages st)) as [last|]; simpl in H;
      [|inversion H; reflexivity].
    destruct (evaluator_llm_with_output self _); simpl in H;
      [inversion H; reflexivity|].
    destruct (evaluator_llm self _); simpl in H; inversion H; reflexivity.
  - inversion H; reflexivity.
Qed.

Lemma tools_step keeps st log st' :
  run_node self now keeps TOOLS st = (log, Ok st') ->
  exists text calls,
    index_last (messages st) = Ok (AIMessage text calls) /\
    st' = {| messages := messages st ++
                         map (fun c => ToolMessage (tools self c) (tc_id c)) calls;
             success_criteria := success_criteria st;
             feedback_on_work := feedback_on_work st;
             success_criteria_met := success_criteria_met st;
             user_input_needed := user_input_needed st;
             iterations := iterations st |}.
Proof.
  simpl. unfold tool_node. unfold_m. intro H.
  destruct (index_last (messages st)) as [[]|]; simpl in H; inversion H; subst.
  eexists _, _. split; reflexivity.
Qed.

Lemma evaluator_step keeps st log st' :
  run_node self now keeps EVALUATOR st = (log, Ok st') ->
  exists r,
    st' = {| messages := messages st ++
                         [AIMessage ("Evaluator Feedback on this answer: " +++ feedback r) []];
             success_criteria := success_criteria st;
             feedback_on_work := Some (feedback r);
             success_criteria_met := eo_success_criteria_met r;
             user_input_needed := eo_user_input_needed r;
             iterations := iterations st |}.
Proof.
  simpl. unfold evaluator, eval_result, evaluator_fallback. unfold_m. intro H.
  destruct (index_last (messages st)) as [last|]; simpl in H; [|inversion H].
  destruct (evaluator_llm_with_output self _) as [r|]; simpl in H.
  - inversion H; subst. exists r. reflexivity.
  - destruct (evaluator_llm self _) as [raw|]; simpl in H; inversion H; subst.
    eexists {| feedback := raw |}. reflexivity.
Qed.

Lemma next_after_worker st n' :
  next_node WORKER st = Ok n' -> n' = TOOLS \/ n' = EVALUATOR.
Proof.
  simpl. unfold worker_router.
  destruct (index_last (messages st)) as [m|]; [|discriminate].
  destruct (has_tool_calls m); simpl; intro H; inversion H; auto.
Qed.

Lemma next_after_evaluator st n' :
  next_node EVALUATOR st = Ok n' ->
  n' = END \/ (n' = WORKER /\ int_or0 (iterations st) < max_iterations).
Proof.
  simpl. unfold route_based_on_evaluation.
  destruct (max_iterations <=? int_or0 (iterations st)) eqn:Hcap.
  - simpl. intro H; inversion H; auto.
  - apply Z.leb_gt in Hcap.
    destruct (success_criteria_met st || user_input_needed st);
      simpl; intro H; inversion H; auto.
Qed.

Lemma run_graph_step keeps k n st :
  n <> END ->
  run_graph self now keeps (S k) n st =
  match run_node self now keeps n st with
  | (log, Raise e) => (EnterNode n :: log, Raised e)
  | (log, Ok st') =>
      match next_node n st' with
      | Raise e => (EnterNode n :: log, Raised e)
      | Ok n' =>
          let (log', out) := run_graph self now keeps k n' st' in
          (EnterNode n :: log ++ log', out)
      end
  end.
Proof.
  destruct n; try congruence; reflexivity.
Qed.

Lemma run_graph_end keeps k st :
  run_graph self now keeps k END st = ([], Finished st).
Proof.
  destruct k; reflexivity.
Qed.

End GraphFacts.

(** A run that reaches [END] from a node, taken apart at its first node. *)
Lemma run_graph_finished_inv self now keeps k n st log final :
  n <> END ->
  run_graph self now keeps (S k) n st = (log, Finished final) ->
  exists nlog st' n' log',
    run_node self now keeps n st = (nlog, Ok st')
    /\ next_node n st' = Ok n'
    /\ run_graph self now keeps k n' st' = (log', Finished final)
    /\ log = EnterNode n :: nlog ++ log'.
Proof.
  intros Hn Hrun. rewrite (run_graph_step _ _ _ _ _ _ Hn) in Hrun.
  destruct (run_node self now keeps n st) as [nlog [st'|e']] eqn:Hnode;
    [|inversion Hrun].
  destruct (next_node n st') as [n'|e'] eqn:Hnext; [|inversion Hrun].
  destruct (run_graph self now keeps k n' st') as [log' out] eqn:Hrest.
  inversion Hrun; subst. eexists _, _, _, _. repeat split; eauto.
Qed.

(** ** C2: the worker step *)

(** C2 fails on the code: when the history holds a system message, [worker]
    overwrites it and falls off its end.  No model is invoked, no message is
    returned, and the state the node leaves has the counter it had. *)
Theorem worker_skips_model_when_system_present :
  forall (self : Sidekick) (now : string) (keeps : bool),
    let st := Examples.with_system in
    let overwritten :=
      [SystemMessage (Worker.system_message now st); HumanMessage "What is 2+2?"] in
    worker self now st = ([], Ok (overwritten, None))
    /\ worker_calls (fst (worker self now st)) = 0%nat
    /\ run_node self now keeps WORKER st = ([], Ok (with_messages st overwritten))
    /\ iterations (with_messages st overwritten) = iterations st
    /\ length (messages (with_messages st overwritten)) = length (messages st).
Proof.
  intros self now keeps. repeat split.
Qed.

(** The same for every state with a system message. *)
Lemma worker_with_system_message (self : Sidekick) (now : string) (st : State) :
  Worker.found_system_message (messages st) = true ->
  worker self now st =
  ([], Ok (Worker.overwrite_system (Worker.system_message now st) (messages st), None)).
Proof.
  intro H. unfold worker. rewrite H. reflexivity.
Qed.

(** And where the worker does run the model: one call, one message, the
    counter plus one. *)
Lemma worker_without_system_message (self : Sidekick) (now : string) (st : State) :
  Worker.found_system_message (messages st) = false ->
  worker self now st =
  let prompt := SystemMessage (Worker.system_message now st) :: messages st in
  ([InvokeWorkerLLM prompt],
   match worker_llm_with_tools self prompt with
   | Ok response =>
       Ok (messages st,
           Some {| upd_messages := [message_of_reply response];
                   upd_success_criteria := None;
                   upd_iterations := Some (int_or0 (iterations st) + 1);
                   upd_feedback_on_work := None;
                   upd_success_criteria_met := None;
                   upd_user_input_needed := None |})
   | Raise e => Raise e
   end).
Proof.
  intro H. unfold worker, Worker.local_messages.
  rewrite H, (overwrite_without_system _ _ H). unfold_m. simpl.
  destruct (worker_llm_with_tools self _); reflexivity.
Qed.

(** ** C1: the iteration cap *)

(** A run that alternates between worker and evaluator on states that keep
    an invariant reaches the recursion limit, whatever the limit is. *)
Lemma run_graph_cycles self now keeps (at_worker at_evaluator : State -> Prop) :
  (forall st, at_worker st ->
     exists log st',
       run_node self now keeps WORKER st = (log, Ok st')
       /\ next_node WORKER st' = Ok EVALUATOR /\ at_evaluator st') ->
  (forall st, at_evaluator st ->
     exists log st',
       run_node self now keeps EVALUATOR st = (log, Ok st')
       /\ next_node EVALUATOR st' = Ok WORKER /\ at_worker st') ->
  forall steps st,
    (at_worker st -> snd (run_graph self now keeps steps WORKER st) = Raised GraphRecursionError)
    /\ (at_evaluator st -> snd (run_graph self now keeps steps EVALUATOR st) = Raised GraphRecursionError).
Proof.
  intros Hworker Hevaluator.
  induction steps as [|k IH]; intro st; [split; reflexivity|].
  split; intro Hst; rewrite run_graph_step by discriminate.
  - destruct (Hworker st Hst) as (log & st' & -> & -> & Hst').
    destruct (run_graph self now keeps k EVALUATOR st') as [log' out] eqn:Hrest.
    simpl. pose proof (proj2 (IH st') Hst') as Hout. rewrite Hrest in Hout. exact Hout.
  - destruct (Hevaluator st Hst) as (log & st' & -> & -> & Hst').
    destruct (run_graph self now keeps k WORKER st') as [log' out] eqn:Hrest.
    simpl. pose proof (proj1 (IH st') Hst') as Hout. rewrite Hrest in Hout. exact Hout.
Qed.

(** The engine drops the undeclared [iterations] key, so the cap never
    fires: with an evaluator that keeps rejecting, the turn of the chat box
    does not reach [END] under any recursion limit. *)
Lemma undeclared_counter_never_stops :
  forall steps,
    snd (ainvoke Examples.rejected_sidekick Examples.clock false steps None
           (superstep_state Examples.question Examples.criteria)) = Raised GraphRecursionError.
Proof.
  intro steps. unfold ainvoke.
  apply (run_graph_cycles Examples.rejected_sidekick Examples.clock false
           (fun st => Worker.found_system_message (messages st) = false
                      /\ iterations st = None)
           (fun st => Worker.found_system_message (messages st) = false
                      /\ iterations st = None
                      /\ exists before text, messages st = before ++ [AIMessage text []])).
  - intros st [Hno Hit]. unfold run_node.
    rewrite (worker_without_system_message _ _ _ Hno). simpl.
    eexists _, _. split; [reflexivity|]. simpl. unfold worker_router. simpl.
    rewrite index_last_snoc. simpl. repeat split; auto.
    + rewrite found_system_app, Hno. reflexivity.
    + eexists _, _. reflexivity.
  - intros st (Hno & Hit & before & text & Hms). simpl.
    unfold evaluator. unfold_m. rewrite Hms, index_last_snoc. simpl.
    eexists _, _. split; [reflexivity|]. simpl.
    unfold route_based_on_evaluation. simpl. rewrite Hit. simpl.
    repeat split; auto. rewrite found_system_app, Hno. reflexivity.
  - split; reflexivity.
Qed.

(** With a system message in the turn's messages the worker never counts,
    not even on an engine that stores the key: with an evaluator that keeps
    rejecting, the turn does not reach [END] under any recursion limit. *)
Lemma system_message_turn_never_stops :
  forall steps,
    snd (ainvoke Examples.rejected_sidekick Examples.clock true steps None
           (superstep_state Examples.system_seeded Examples.criteria)) = Raised GraphRecursionError.
Proof.
  intro steps. unfold ainvoke.
  pose (inv := fun st : State =>
          Worker.found_system_message (messages st) = true
          /\ iterations st = Some 0
          /\ exists before m, messages st = before ++ [m] /\ has_tool_calls m = false).
  apply (run_graph_cycles Examples.rejected_sidekick Examples.clock true inv inv).
  - intros st (Hsys & Hit & before & m & Hms & Hm). unfold run_node.
    rewrite (worker_with_system_message _ _ _ Hsys). simpl.
    eexists _, _. split; [reflexivity|].
    assert (Hlast : Worker.overwrite_system (Worker.system_message Examples.clock st)
                      (messages st)
                    = Worker.overwrite_system (Worker.system_message Examples.clock st) before
                      ++ [Worker.set_system_content
                            (Worker.system_message Examples.clock st) m])
      by (rewrite Hms; unfold Worker.overwrite_system; rewrite map_app; reflexivity).
    assert (Hm' : has_tool_calls
                    (Worker.set_system_content
                       (Worker.system_message Examples.clock st) m) = false)
      by (destruct m; auto).
    split; [|repeat split; auto].
    + simpl. unfold worker_router. simpl. rewrite Hlast, index_last_snoc, Hm'.
      reflexivity.
    + simpl. clear - Hsys. unfold Worker.found_system_message, Worker.overwrite_system in *.
      induction (messages st) as [|[] ms IH]; simpl in *; auto.
    + simpl. eexists _, _. split; [exact Hlast | exact Hm'].
  - intros st (Hsys & Hit & before & m & Hms & Hm). simpl.
    unfold evaluator. unfold_m. rewrite Hms, index_last_snoc. simpl.
    eexists _, _. split; [reflexivity|]. simpl.
    unfold route_based_on_evaluation. simpl. rewrite Hit. simpl.
    repeat split; auto.
    + simpl. rewrite found_system_app, Hsys. reflexivity.
    + simpl. eexists _, _. split; reflexivity.
  - repeat split. exists [SystemMessage "You are a helpful assistant."], (HumanMessage "What is 2+2?").
    split; reflexivity.
Qed.

(** On the engine of the program no node changes the counter. *)
Lemma run_node_drops_counter self now n st log st' :
  run_node self now false n st = (log, Ok st') ->
  iterations st' = iterations st.
Proof.
  intro H. destruct n.
  - simpl in H. unfold worker in H.
    destruct (Worker.found_system_message (messages st)); simpl in H; unfold_m.
    + inversion H; reflexivity.
    + destruct (worker_llm_with_tools self _); simpl in H; inversion H; reflexivity.
  - destruct (tools_step _ _ _ _ _ _ H) as (text & calls & _ & ->). reflexivity.
  - destruct (evaluator_step _ _ _ _ _ _ H) as (r & ->). reflexivity.
  - simpl in H. inversion H; reflexivity.
Qed.

(** So the first branch of [route_based_on_evaluation] is dead: a turn of
    the program reaches [END] with the counter still absent, and only on a
    verdict of success or of user input. *)
Lemma run_ends_on_a_verdict_only self now steps :
  forall n st log final,
    n <> END ->
    iterations st = None ->
    run_graph self now false steps n st = (log, Finished final) ->
    iterations final = None
    /\ success_criteria_met final || user_input_needed final = true.
Proof.
  induction steps as [|k IH]; intros n st log final Hn Hit Hrun.
  - destruct n; simpl in Hrun; try congruence; inversion Hrun.
  - destruct (run_graph_finished_inv _ _ _ _ _ _ _ _ Hn Hrun)
      as (nlog & st' & n' & log' & Hnode & Hnext & Hrest & _).
    pose proof (run_node_drops_counter _ _ _ _ _ _ Hnode) as Hit'.
    rewrite Hit in Hit'.
    assert (Hend : n' = END \/ n' <> END) by (destruct n'; auto; right; discriminate).
    destruct Hend as [->|Hn']; [|exact (IH _ _ _ _ Hn' Hit' Hrest)].
    rewrite run_graph_end in Hrest. inversion Hrest; subst.
    split; [exact Hit'|].
    destruct n; try congruence.
    + destruct (next_after_worker _ _ Hnext); discriminate.
    + simpl in Hnext. discriminate.
    + simpl in Hnext. unfold route_based_on_evaluation in Hnext.
      rewrite Hit' in Hnext. simpl in Hnext.
      destruct (success_criteria_met final || user_input_needed final);
        [reflexivity | simpl in Hnext; discriminate].
Qed.

(** C1 fails on the code.  The chat box sends "What is 2+2?", the worker
    answers without a tool and the evaluator rejects every answer: the
    worker runs thirteen times and the evaluator twelve, and the turn ends
    in [GraphRecursionError], not at [END], so [run_superstep] raises.
    With a worker that asks for a tool ten times and a verdict of success,
    the turn reaches [END] after eleven worker runs.  In both the counter
    is absent from the state: the engine drops the key. *)
Theorem iteration_cap_never_fires :
  (exists log,
      ainvoke Examples.rejected_sidekick Examples.clock false recursion_limit None
        (superstep_state Examples.question Examples.criteria)
      = (log, Raised GraphRecursionError)
      /\ entries WORKER log = 13%nat
      /\ worker_calls log = 13%nat
      /\ entries EVALUATOR log = 12%nat)
  /\ snd (run_superstep Examples.rejected_sidekick Examples.clock false None
            Examples.question Examples.criteria [])
     = Raised GraphRecursionError
  /\ (exists log final,
        ainvoke Examples.searching_sidekick Examples.clock false recursion_limit None
          (superstep_state (Text "What is the capital of France?") Examples.criteria)
        = (log, Finished final)
        /\ entries WORKER log = 11%nat
        /\ worker_calls log = 11%nat
        /\ iterations final = None).
Proof.
  split; [|split].
  - eexists. split; [vm_compute; reflexivity|]. vm_compute. repeat split.
  - vm_compute. reflexivity.
  - eexists _, _. split; [vm_compute; reflexivity|]. vm_compute. repeat split.
Qed.

(** ** C3: the evaluator's fallback *)

Lemma user_needed_is_question_mark (raw_text : string) :
  user_needed raw_text = contains "?" raw_text.
Proof.
  unfold user_needed.
  destruct (contains "?" raw_text); simpl; [|reflexivity].
  rewrite orb_true_r. reflexivity.
Qed.

(** C3, as stated, fails: a raw reply with a question mark and neither cue
    word is still flagged as needing user input. *)
Lemma fallback_flags_question_without_cue_word :
  let raw_text := "Is the task finished?"%string in
  contains "please" (lower raw_text) = false
  /\ contains "clarify" (lower raw_text) = false
  /\ exists log,
       evaluator Examples.unparsable_sidekick Examples.answered
       = (log, Ok (new_state {| feedback := raw_text;
                                eo_success_criteria_met := false;
                                eo_user_input_needed := true |})).
Proof.
  repeat split. eexists. vm_compute. reflexivity.
Qed.

(** C3, amended.  When the structured channel raises and the plain-text
    channel returns a text, [evaluator] does not raise: it has invoked the
    structured channel and then the plain-text channel on the same prompt,
    and its verdict has [success_criteria_met = false], the raw text as
    feedback, and [user_input_needed] true exactly when the raw text
    contains a question mark. *)
Theorem evaluator_fallback_verdict :
  forall (self : Sidekick) (st : State) (last : Message) (e : Exn) (raw_text : string),
    index_last (messages st) = Ok last ->
    evaluator_llm_with_output self (evaluator_messages st (content last)) = Raise e ->
    evaluator_llm self (evaluator_messages st (content last)) = Ok raw_text ->
    evaluator self st =
      ([InvokeStructuredEvaluator (evaluator_messages st (content last));
        InvokeRawEvaluator (evaluator_messages st (content last))],
       Ok (new_state {| feedback := raw_text;
                        eo_success_criteria_met := false;
                        eo_user_input_needed := contains "?" raw_text |})).
Proof.
  intros self st last e raw_text Hlast Hstructured Hraw.
  unfold evaluator, eval_result, evaluator_fallback. unfold_m.
  rewrite Hlast. simpl. rewrite Hstructured. simpl. rewrite Hraw. simpl.
  rewrite user_needed_is_question_mark. reflexivity.
Qed.

Lemma evaluator_fallback_verdict_witness :
  evaluator Examples.unparsable_sidekick Examples.answered =
    ([InvokeStructuredEvaluator (evaluator_messages Examples.answered "4");
      InvokeRawEvaluator (evaluator_messages Examples.answered "4")],
     Ok (new_state {| feedback := "Is the task finished?";
                      eo_success_criteria_met := false;
                      eo_user_input_needed := contains "?" "Is the task finished?" |})).
Proof.
  apply (evaluator_fallback_verdict Examples.unparsable_sidekick Examples.answered
           (AIMessage "4" []) (ValueError "Invalid json output")
           "Is the task finished?");
    reflexivity.
Defined.

(** The fallback has no handler of its own: when the plain-text channel
    raises as well, [evaluator] raises. *)
Lemma evaluator_fallback_can_raise (self : Sidekick) (st : State) (last : Message)
    (e e' : Exn) :
  index_last (messages st) = Ok last ->
  evaluator_llm_with_output self (evaluator_messages st (content last)) = Raise e ->
  evaluator_llm self (evaluator_messages st (content last)) = Raise e' ->
  snd (evaluator self st) = Raise e'.
Proof.
  intros Hlast Hstructured Hraw.
  unfold evaluator, eval_result, evaluator_fallback. unfold_m.
  rewrite Hlast. simpl. rewrite Hstructured. simpl. rewrite Hraw. reflexivity.
Qed.

(** ** C4: the routing *)

(** C4.  On a state whose last message is [last] and whose counter is
    [counter]: out of the worker the run goes to the tools exactly when
    [last] is an assistant message that carries at least one tool call, and
    to the evaluator otherwise; out of the tools it goes to the worker; out
    of the evaluator it goes to [END] exactly when [counter] is at least
    ten or the verdict says success or user input, and back to the worker
    otherwise.  An absent counter counts as zero. *)
Theorem routing_table :
  forall (st : State) (before : list Message) (last : Message),
    messages st = before ++ [last] ->
    next_node WORKER st =
      Ok (match last with
          | AIMessage _ (_ :: _) => TOOLS
          | _ => EVALUATOR
          end)
    /\ next_node TOOLS st = Ok WORKER
    /\ next_node EVALUATOR st =
         Ok (match iterations st with
             | Some counter =>
                 if (10 <=? counter) || success_criteria_met st || user_input_needed st
                 then END else WORKER
             | None =>
                 if success_criteria_met st || user_input_needed st
                 then END else WORKER
             end).
Proof.
  intros st before last Hms. repeat split.
  - simpl. unfold worker_router. rewrite Hms, index_last_snoc.
    destruct last as [c|c|c [|call calls]|c i]; reflexivity.
  - simpl. unfold route_based_on_evaluation, max_iterations.
    destruct (iterations st) as [counter|]; simpl.
    + destruct (10 <=? counter); simpl; [reflexivity|].
      destruct (success_criteria_met st || user_input_needed st); reflexivity.
    + destruct (success_criteria_met st || user_input_needed st); reflexivity.
Qed.

Lemma routing_table_witness :
  (next_node WORKER
     (Examples.state_of [HumanMessage "What is the capital of France?";
                         AIMessage EmptyString [Examples.search_call]]) = Ok TOOLS
   /\ next_node WORKER Examples.answered = Ok EVALUATOR
   /\ next_node WORKER Examples.after_tool = Ok EVALUATOR
   /\ next_node TOOLS Examples.after_tool = Ok WORKER)
  /\ (next_node EVALUATOR
        {| messages := [HumanMessage "What is 2+2?"; AIMessage "4" []];
           success_criteria := "a numeric answer";
           feedback_on_work := Some "Not yet."%string;
           success_criteria_met := false;
           user_input_needed := false;
           iterations := Some 9 |} = Ok WORKER
      /\ next_node EVALUATOR
           {| messages := [HumanMessage "What is 2+2?"; AIMessage "4" []];
              success_criteria := "a numeric answer";
              feedback_on_work := Some "Not yet."%string;
              success_criteria_met := false;
              user_input_needed := false;
              iterations := Some 10 |} = Ok END
      /\ next_node EVALUATOR
           {| messages := [HumanMessage "What is 2+2?"; AIMessage "4" []];
              success_criteria := "a numeric answer";
              feedback_on_work := Some "Not yet."%string;
              success_criteria_met := false;
              user_input_needed := false;
              iterations := None |} = Ok WORKER
      /\ next_node EVALUATOR
           {| messages := [HumanMessage "What is 2+2?"; AIMessage "4" []];
              success_criteria := "a numeric answer";
              feedback_on_work := Some "Fine."%string;
              success_criteria_met := true;
              user_input_needed := false;
              iterations := None |} = Ok END
      /\ next_node EVALUATOR
           {| messages := [HumanMessage "What is 2+2?"; AIMessage "Which base?" []];
              success_criteria := "a numeric answer";
              feedback_on_work := Some "The assistant asks."%string;
              success_criteria_met := false;
              user_input_needed := true;
              iterations := Some 1 |} = Ok END).
Proof.
  refine (conj (conj _ (conj _ (conj _ _))) (conj _ (conj _ (conj _ (conj _ _))))).
  - exact (proj1 (routing_table
                    (Examples.state_of [HumanMessage "What is the capital of France?";
                                        AIMessage EmptyString [Examples.search_call]])
                    [HumanMessage "What is the capital of France?"]
                    (AIMessage EmptyString [Examples.search_call]) eq_refl)).
  - exact (proj1 (routing_table Examples.answered [HumanMessage "What is 2+2?"]
                    (AIMessage "4" []) eq_refl)).
  - exact (proj1 (routing_table Examples.after_tool
                    [HumanMessage "What is the capital of France?";
                     AIMessage EmptyString [Examples.search_call]]
                    (ToolMessage "Paris is the capital of France." "call_1") eq_refl)).
  - exact (proj1 (proj2 (routing_table Examples.after_tool
                    [HumanMessage "What is the capital of France?";
                     AIMessage EmptyString [Examples.search_call]]
                    (ToolMessage "Paris is the capital of France." "call_1") eq_refl))).
  - match goal with
    | |- next_node EVALUATOR ?st = _ =>
        exact (proj2 (proj2 (routing_table st [HumanMessage "What is 2+2?"] _ eq_refl)))
    end.
  - match goal with
    | |- next_node EVALUATOR ?st = _ =>
        exact (proj2 (proj2 (routing_table st [HumanMessage "What is 2+2?"] _ eq_refl)))
    end.
  - match goal with
    | |- next_node EVALUATOR ?st = _ =>
        exact (proj2 (proj2 (routing_table st [HumanMessage "What is 2+2?"] _ eq_refl)))
    end.
  - match goal with
    | |- next_node EVALUATOR ?st = _ =>
        exact (proj2 (proj2 (routing_table st [HumanMessage "What is 2+2?"] _ eq_refl)))
    end.
  - match goal with
    | |- next_node EVALUATOR ?st = _ =>
        exact (proj2 (proj2 (routing_table st [HumanMessage "What is 2+2?"] _ eq_refl)))
    end.
Defined.

(** ** C5: the system message *)

Lemma count_system_overwrite text ms :
  count_system (Worker.overwrite_system text ms) = count_system ms.
Proof.
  unfold count_system, Worker.overwrite_system.
  induction ms as [|[]]; simpl; auto.
Qed.

Lemma count_system_none ms :
  Worker.found_system_message ms = false -> count_system ms = 0%nat.
Proof.
  unfold count_system, Worker.found_system_message.
  induction ms as [|[]]; simpl; auto; discriminate.
Qed.

Lemma count_system_some ms :
  Worker.found_system_message ms = true -> (1 <= count_system ms)%nat.
Proof.
  unfold count_system, Worker.found_system_message.
  induction ms as [|[]]; simpl; auto; try discriminate; lia.
Qed.

Lemma overwritten_system_content text ms :
  Forall (fun m => is_system m = true -> m = SystemMessage text)
         (Worker.overwrite_system text ms).
Proof.
  unfold Worker.overwrite_system.
  induction ms as [|[]]; simpl; constructor; auto; discriminate.
Qed.

(** C5, as stated, fails: a history with two system messages has two after
    the worker step, in the list the worker holds and in the state the node
    leaves.  (And a history with none has none in the state afterwards: the
    prepended message lives in the list handed to the model only.) *)
Lemma two_system_messages_remain :
  let st := Examples.with_two_systems in
  count_system (Worker.local_messages
                  (Worker.system_message Examples.clock st) (messages st)) = 2%nat
  /\ (exists st',
        run_node Examples.answering_sidekick Examples.clock true WORKER st = ([], Ok st')
        /\ count_system (messages st') = 2%nat)
  /\ (exists log st',
        run_node Examples.answering_sidekick Examples.clock true WORKER
          (Examples.state_of [HumanMessage "What is 2+2?"]) = (log, Ok st')
        /\ count_system (messages st') = 0%nat).
Proof.
  split; [reflexivity|]. split.
  - eexists. split; reflexivity.
  - eexists _, _. split; reflexivity.
Qed.

(** C5, amended.  The list the worker holds after lines 155-163 has as many
    system messages as the history had, and one if it had none: with a
    system message present every system message is overwritten in its place
    and nothing is added; with none present one is put at the front.  Every
    system message of the list carries the new text.  The history kept in
    the state is only overwritten: it gains no system message. *)
Theorem system_message_insert_or_overwrite :
  forall (text : string) (ms : list Message),
    count_system (Worker.local_messages text ms) = Nat.max 1 (count_system ms)
    /\ Worker.local_messages text ms =
         (if Worker.found_system_message ms
          then map (Worker.set_system_content text) ms
          else SystemMessage text :: ms)
    /\ Forall (fun m => is_system m = true -> m = SystemMessage text)
              (Worker.local_messages text ms)
    /\ count_system (Worker.overwrite_system text ms) = count_system ms
    /\ length (Worker.overwrite_system text ms) = length ms.
Proof.
  intros text ms. unfold Worker.local_messages.
  destruct (Worker.found_system_message ms) eqn:Hfound.
  - pose proof (count_system_some _ Hfound).
    rewrite count_system_overwrite. repeat split; try lia.
    + apply overwritten_system_content.
    + apply length_map.
  - rewrite (overwrite_without_system _ _ Hfound).
    pose proof (count_system_none _ Hfound) as H0.
    repeat split.
    + unfold count_system in *. simpl. rewrite H0. reflexivity.
    + constructor; [reflexivity|].
      rewrite <- (overwrite_without_system text _ Hfound).
      apply overwritten_system_content.
Qed.

(** ** C6: [run_superstep] *)

Lemma index_last_inv {A} (xs : list A) (x : A) :
  index_last xs = Ok x -> exists before, xs = before ++ [x].
Proof.
  unfold index_last. destruct (rev xs) as [|y l] eqn:Hrev; intro H; inversion H; subst.
  exists (rev l). rewrite <- (rev_involutive xs), Hrev. reflexivity.
Qed.

Lemma index_penultimate_snoc {A} (xs : list A) (x y : A) :
  index_penultimate (xs ++ [x; y]) = Ok x.
Proof.
  unfold index_penultimate. rewrite rev_app_distr. reflexivity.
Qed.

Lemma evaluator_step_messages self now keeps st log st' :
  run_node self now keeps EVALUATOR st = (log, Ok st') ->
  exists before last fb,
    messages st = before ++ [last]
    /\ messages st' =
         before ++ [last; AIMessage ("Evaluator Feedback on this answer: " +++ fb) []]
    /\ feedback_on_work st' = Some fb.
Proof.
  intro H. destruct (evaluator_step _ _ _ _ _ _ H) as (r & ->).
  simpl in H. unfold evaluator in H. unfold_m.
  destruct (index_last (messages st)) as [last|] eqn:Hlast; simpl in H;
    [|inversion H].
  destruct (index_last_inv _ _ Hlast) as (before & Hms).
  exists before, last, (feedback r). simpl. rewrite Hms, <- app_assoc.
  repeat split.
Qed.

(** A run ends right after an evaluator pass: the last message is the
    evaluator's, and there is one before it. *)
Lemma finished_after_evaluator self now keeps steps :
  forall n st log final,
    run_graph self now keeps steps n st = (log, Finished final) ->
    n = END \/
    exists before m2 fb,
      messages final =
        before ++ [m2; AIMessage ("Evaluator Feedback on this answer: " +++ fb) []]
      /\ feedback_on_work final = Some fb.
Proof.
  induction steps as [|k IH]; intros n st log final Hrun.
  - destruct n; simpl in Hrun; inversion Hrun; auto.
  - destruct n; auto; right.
    all: match type of Hrun with
         | run_graph _ _ _ _ ?m _ = _ => assert (Hn : m <> END) by discriminate
         end.
    all: destruct (run_graph_finished_inv _ _ _ _ _ _ _ _ Hn Hrun)
      as (nlog & st' & n' & log' & Hnode & Hnext & Hrest & _).
    all: destruct (IH _ _ _ _ Hrest) as [-> | Hdone]; auto.
    + destruct (next_after_worker _ _ Hnext); discriminate.
    + simpl in Hnext. discriminate.
    + rewrite run_graph_end in Hrest. inversion Hrest; subst.
      destruct (evaluator_step_messages _ _ _ _ _ _ Hnode)
        as (before & last & fb & _ & Hms & Hfb).
      eauto.
Qed.

Lemma ainvoke_finished_after_evaluator self now keeps steps saved input log final :
  ainvoke self now keeps steps saved input = (log, Finished final) ->
  exists before m2 fb,
    messages final =
      before ++ [m2; AIMessage ("Evaluator Feedback on this answer: " +++ fb) []]
    /\ feedback_on_work final = Some fb.
Proof.
  unfold ainvoke. intro Hrun.
  destruct (finished_after_evaluator self now keeps steps WORKER
              (turn_state keeps saved input) log final Hrun)
    as [Habs | Hdone]; [discriminate | exact Hdone].
Qed.

Lemma overwrite_overwrite t1 t2 ms :
  Worker.overwrite_system t2 (Worker.overwrite_system t1 ms)
  = Worker.overwrite_system t2 ms.
Proof.
  unfold Worker.overwrite_system. rewrite map_map.
  apply map_ext. intros []; reflexivity.
Qed.

Lemma overwrite_app text ms1 ms2 :
  Worker.overwrite_system text (ms1 ++ ms2)
  = Worker.overwrite_system text ms1 ++ Worker.overwrite_system text ms2.
Proof.
  apply map_app.
Qed.

(** What a node does to the messages it finds: it leaves them, or it
    overwrites their system messages with a text of [worker]; and it
    appends. *)
Lemma run_node_rewrites self now keeps n st log st' :
  run_node self now keeps n st = (log, Ok st') ->
  exists kept extra,
    messages st' = kept ++ extra
    /\ (kept = messages st
        \/ exists st0,
             kept = Worker.overwrite_system (Worker.system_message now st0) (messages st))
    /\ (n = WORKER ->
        kept = Worker.overwrite_system (Worker.system_message now st) (messages st)).
Proof.
  intro H. destruct n.
  - simpl in H. unfold worker in H.
    destruct (Worker.found_system_message (messages st)); simpl in H; unfold_m.
    + inversion H; subst. simpl. eexists _, []. rewrite app_nil_r.
      repeat split; eauto.
    + destruct (worker_llm_with_tools self _) as [r|]; simpl in H;
        inversion H; subst. simpl. eexists _, _. repeat split; eauto.
  - destruct (tools_step _ _ _ _ _ _ H) as (text & calls & _ & ->). simpl.
    eexists _, _. repeat split; eauto. discriminate.
  - destruct (evaluator_step _ _ _ _ _ _ H) as (r & ->). simpl.
    eexists _, _. repeat split; eauto. discriminate.
  - simpl in H. inversion H; subst. exists (messages st'), [].
    rewrite app_nil_r. repeat split; auto. discriminate.
Qed.

Lemma run_graph_rewrites self now keeps steps :
  forall n st log final,
    run_graph self now keeps steps n st = (log, Finished final) ->
    exists kept extra,
      messages final = kept ++ extra
      /\ (kept = messages st
          \/ exists st0,
               kept = Worker.overwrite_system (Worker.system_message now st0) (messages st))
      /\ (n = WORKER ->
          exists st0,
            kept = Worker.overwrite_system (Worker.system_message now st0) (messages st)).
Proof.
  induction steps as [|k IH]; intros n st log final Hrun.
  - destruct n; simpl in Hrun; inversion Hrun; subst.
    exists (messages final), []. rewrite app_nil_r. repeat split; auto. discriminate.
  - assert (Hend : n = END \/ n <> END) by (destruct n; auto; right; discriminate).
    destruct Hend as [->|Hn].
    { simpl in Hrun. inversion Hrun; subst.
      exists (messages final), []. rewrite app_nil_r. repeat split; auto. discriminate. }
    destruct (run_graph_finished_inv _ _ _ _ _ _ _ _ Hn Hrun)
      as (nlog & st' & n' & log' & Hnode & _ & Hrest & _).
    destruct (run_node_rewrites _ _ _ _ _ _ _ Hnode) as (k1 & e1 & Hst' & Hk1 & Hw1).
    destruct (IH _ _ _ _ Hrest) as (k2 & e2 & Hfinal & Hk2 & _).
    destruct Hk2 as [-> | (st2 & ->)].
    + exists k1, (e1 ++ e2). rewrite Hfinal, Hst', app_assoc.
      repeat split; auto. intro Hw. eexists. exact (Hw1 Hw).
    + exists (Worker.overwrite_system (Worker.system_message now st2) (messages st)),
        (Worker.overwrite_system (Worker.system_message now st2) e1 ++ e2).
      rewrite Hfinal, Hst', overwrite_app, <- app_assoc.
      assert (Hsame : Worker.overwrite_system (Worker.system_message now st2) k1
                      = Worker.overwrite_system (Worker.system_message now st2) (messages st))
        by (destruct Hk1 as [-> | (st1 & ->)];
            [reflexivity | apply overwrite_overwrite]).
      rewrite Hsame. repeat split; eauto.
Qed.

(** The caller's messages after a turn: their system messages carry the
    text of a worker entry, and nothing else has changed. *)
Lemma held_payload_overwritten self now keeps steps saved message criteria log result :
  ainvoke self now keeps steps saved (superstep_state message criteria)
  = (log, Finished result) ->
  exists st0,
    held_payload message saved result
    = overwritten_payload (Worker.system_message now st0) message.
Proof.
  intro Hrun. unfold ainvoke in Hrun.
  destruct (run_graph_rewrites _ _ _ _ _ _ _ _ Hrun) as (kept & extra & Hfinal & _ & Hw).
  destruct (Hw eq_refl) as (st0 & ->). exists st0.
  destruct message as [text|ms]; [reflexivity|].
  unfold held_payload, overwritten_payload. f_equal.
  assert (Hstart : messages (turn_state keeps saved (superstep_state (Messages ms) criteria))
                   = stored_messages saved ++ ms)
    by (destruct saved; reflexivity).
  rewrite Hfinal, Hstart, overwrite_app, <- app_assoc.
  set (text := Worker.system_message now st0).
  assert (Hlen : length (stored_messages saved)
                 = length (Worker.overwrite_system text (stored_messages saved)))
    by (unfold Worker.overwrite_system; rewrite length_map; reflexivity).
  rewrite Hlen, skipn_app, skipn_all, Nat.sub_diag. simpl.
  assert (Hlen' : length ms = length (Worker.overwrite_system text ms))
    by (unfold Worker.overwrite_system; rewrite length_map; reflexivity).
  rewrite Hlen', firstn_app, firstn_all, Nat.sub_diag. simpl.
  apply app_nil_r.
Qed.

(** C6.  The dict a turn starts with holds [feedback_on_work = None], both
    flags false and the counter at zero, and the state it is merged into
    reads so: the engine of the program drops the counter, which reads as
    zero.  The success criteria are the caller's, or the fixed text when
    the caller gives none; the messages are the stored ones followed by the
    new message.  When the graph reaches [END], [run_superstep] returns the
    history it was given followed by exactly three entries: the user's
    message, the content of the second-to-last message of the run, and the
    content of its last message.  The user's message is the object the
    caller passed: a text as it is, a list of messages with the content of
    its system messages as [worker] left it. *)
Theorem run_superstep_extends_history :
  forall (self : Sidekick) (now : string) (keeps : bool)
         (saved : option State) (message : Payload) (criteria : option string)
         (history : list ChatEntry) (log : list Event) (result : State),
    stored_by_engine saved ->
    ainvoke self now keeps recursion_limit saved (superstep_state message criteria)
    = (log, Finished result) ->
    feedback_on_work (turn_state keeps saved (superstep_state message criteria)) = None
    /\ success_criteria_met (turn_state keeps saved (superstep_state message criteria)) = false
    /\ user_input_needed (turn_state keeps saved (superstep_state message criteria)) = false
    /\ upd_iterations (superstep_state message criteria) = Some 0
    /\ iterations (turn_state false saved (superstep_state message criteria)) = None
    /\ int_or0 (iterations (turn_state keeps saved (superstep_state message criteria))) = 0
    /\ success_criteria (turn_state keeps saved (superstep_state message criteria)) =
         match criteria with
         | Some (String c rest) => String c rest
         | _ => "The answer should be clear and accurate"%string
         end
    /\ messages (turn_state keeps saved (superstep_state message criteria)) =
         stored_messages saved ++ convert_to_messages message
    /\ exists before m2 m1 st0,
         messages result = before ++ [m2; m1]
         /\ run_superstep self now keeps saved message criteria history =
              (log,
               Finished
                 (history ++
                  [ {| role := "user";
                       entry_content :=
                         overwritten_payload (Worker.system_message now st0) message |};
                    {| role := "assistant"; entry_content := Text (content m2) |};
                    {| role := "assistant"; entry_content := Text (content m1) |} ]))
         /\ (Worker.found_system_message (convert_to_messages message) = false ->
             overwritten_payload (Worker.system_message now st0) message = message).
Proof.
  intros self now keeps saved message criteria history log result Hsaved Hrun.
  unfold run_superstep.
  remember recursion_limit as steps eqn:Hsteps in *. clear Hsteps.
  split; [reflexivity|]. split; [reflexivity|]. split; [reflexivity|].
  split; [reflexivity|].
  split; [destruct saved as [s|]; [exact Hsaved | reflexivity]|].
  split.
  { destruct keeps; [reflexivity|].
    destruct saved as [s|]; simpl; [simpl in Hsaved; rewrite Hsaved|]; reflexivity. }
  split; [destruct criteria as [[|c rest]|]; reflexivity|].
  split; [destruct saved; reflexivity|].
  destruct (held_payload_overwritten _ _ _ _ _ _ _ _ _ Hrun) as (st0 & Hheld).
  destruct (ainvoke_finished_after_evaluator _ _ _ _ _ _ _ _ Hrun)
    as (before & m2 & fb & Hms & _).
  eexists before, m2, _, st0. split; [exact Hms|]. split.
  - rewrite Hrun, Hms, Hheld.
    rewrite index_penultimate_snoc.
    change (before ++ [m2; AIMessage ("Evaluator Feedback on this answer: " +++ fb) []])
      with (before ++ [m2] ++ [AIMessage ("Evaluator Feedback on this answer: " +++ fb) []]).
    rewrite app_assoc, index_last_snoc. reflexivity.
  - intro Hno. destruct message as [text|ms]; [reflexivity|].
    simpl in Hno. simpl. rewrite (overwrite_without_system _ _ Hno). reflexivity.
Qed.

Lemma run_superstep_extends_history_witness :
  stored_by_engine None
  /\ ainvoke Examples.answering_sidekick Examples.clock false recursion_limit None
       (superstep_state Examples.question Examples.criteria)
     = ([EnterNode WORKER;
         InvokeWorkerLLM
           [SystemMessage (Worker.system_message Examples.clock
                             (Examples.state_of [HumanMessage "What is 2+2?"]));
            HumanMessage "What is 2+2?"];
         EnterNode EVALUATOR;
         InvokeStructuredEvaluator
           (evaluator_messages Examples.answered "4")],
        Finished
          {| messages := [HumanMessage "What is 2+2?"; AIMessage "4" [];
                          AIMessage "Evaluator Feedback on this answer: The answer is numeric." []];
             success_criteria := "a numeric answer";
             feedback_on_work := Some "The answer is numeric."%string;
             success_criteria_met := true;
             user_input_needed := false;
             iterations := None |})
  /\ exists before m2 m1 log,
       before ++ [m2; m1] =
         [HumanMessage "What is 2+2?"; AIMessage "4" [];
          AIMessage "Evaluator Feedback on this answer: The answer is numeric." []]
       /\ run_superstep Examples.answering_sidekick Examples.clock false None
            Examples.question Examples.criteria [] =
            (log,
             Finished
               [ {| role := "user"; entry_content := Examples.question |};
                 {| role := "assistant"; entry_content := Text (content m2) |};
                 {| role := "assistant"; entry_content := Text (content m1) |} ]).
Proof.
  split; [exact I|]. split; [vm_compute; reflexivity|].
  destruct (run_superstep_extends_history
              Examples.answering_sidekick Examples.clock false None
              Examples.question Examples.criteria [] _ _ I
              ltac:(vm_compute; reflexivity))
    as (_ & _ & _ & _ & _ & _ & _ & _ & before & m2 & m1 & st0 & Hms & Hrun & _).
  exists before, m2, m1. eexists. split; [symmetry; exact Hms | exact Hrun].
Defined.

(** A list payload with a system message comes back with the content
    [worker] assigned: the entry of the history and the state hold the same
    message objects. *)
Lemma run_superstep_returns_overwritten_message :
  snd (run_superstep Examples.answering_sidekick Examples.clock false None
         Examples.system_seeded Examples.criteria [])
  = Finished
      [ {| role := "user";
           entry_content :=
             Messages
               [SystemMessage
                  (Worker.system_message Examples.clock
                     (Examples.state_of [HumanMessage "What is 2+2?"]));
                HumanMessage "What is 2+2?"] |};
        {| role := "assistant"; entry_content := Text "What is 2+2?" |};
        {| role := "assistant";
           entry_content :=
             Text "Evaluator Feedback on this answer: The answer is numeric." |} ].
Proof.
  vm_compute. reflexivity.
Qed.

(** ** C7: the evaluator's message *)

(** C7.  Whenever the evaluator obtains a verdict -- from the structured
    channel or from the fallback -- it returns exactly one assistant message
    whose content is the fixed prefix followed by the verdict's feedback,
    and the three state fields are set from the verdict: the state gains
    that one message at its end. *)
Theorem evaluator_appends_feedback_message :
  forall (self : Sidekick) (keeps : bool) (st : State) (last : Message)
         (log : list Event) (verdict : EvaluatorOutput),
    index_last (messages st) = Ok last ->
    eval_result self (evaluator_messages st (content last)) = (log, Ok verdict) ->
    evaluator self st =
      (log,
       Ok {| upd_messages :=
               [AIMessage ("Evaluator Feedback on this answer: " +++ feedback verdict) []];
             upd_success_criteria := None;
             upd_iterations := None;
             upd_feedback_on_work := Some (Some (feedback verdict));
             upd_success_criteria_met := Some (eo_success_criteria_met verdict);
             upd_user_input_needed := Some (eo_user_input_needed verdict) |})
    /\ forall now,
         run_node self now keeps EVALUATOR st =
           (log,
            Ok {| messages :=
                    messages st ++
                    [AIMessage ("Evaluator Feedback on this answer: " +++ feedback verdict) []];
                  success_criteria := success_criteria st;
                  feedback_on_work := Some (feedback verdict);
                  success_criteria_met := eo_success_criteria_met verdict;
                  user_input_needed := eo_user_input_needed verdict;
                  iterations := iterations st |}).
Proof.
  intros self keeps st last log verdict Hlast Hverdict.
  assert (Hev : evaluator self st = (log, Ok (new_state verdict))).
  { unfold evaluator. unfold_m. rewrite Hlast. simpl.
    unfold_m. rewrite Hverdict. rewrite app_nil_r. reflexivity. }
  split; [exact Hev|].
  intro now. simpl. unfold_m. rewrite Hev. rewrite app_nil_r. reflexivity.
Qed.

Lemma evaluator_appends_feedback_message_witness :
  run_node Examples.answering_sidekick Examples.clock true EVALUATOR Examples.answered =
    ([InvokeStructuredEvaluator (evaluator_messages Examples.answered "4")],
     Ok {| messages :=
             [HumanMessage "What is 2+2?"; AIMessage "4" [];
              AIMessage "Evaluator Feedback on this answer: The answer is numeric." []];
           success_criteria := "a numeric answer";
           feedback_on_work := Some "The answer is numeric."%string;
           success_criteria_met := true;
           user_input_needed := false;
           iterations := Some 0 |}).
Proof.
  apply (proj2 (evaluator_appends_feedback_message
                  Examples.answering_sidekick true Examples.answered
                  (AIMessage "4" [])
                  [InvokeStructuredEvaluator (evaluator_messages Examples.answered "4")]
                  {| feedback := "The answer is numeric.";
                     eo_success_criteria_met := true;
                     eo_user_input_needed := false |}
                  eq_refl eq_refl)
               Examples.clock).
Defined.

(** ** C10: what the evaluator is shown *)

Lemma append_nil_r (s : string) : s +++ EmptyString = s.
Proof.
  induction s; simpl; congruence.
Qed.

Lemma append_assoc (a b c : string) : (a +++ b) +++ c = a +++ b +++ c.
Proof.
  induction a; simpl; congruence.
Qed.

Lemma format_message_hidden (m : Message) :
  is_visible m = false -> format_message m = EmptyString.
Proof.
  destruct m; simpl; congruence.
Qed.

Lemma format_loop_join (ms : list Message) :
  forall conversation,
    format_loop conversation ms =
    conversation +++ join (map format_message (filter is_visible ms)).
Proof.
  induction ms as [|m ms IH]; intro conversation; cbn [format_loop filter].
  - symmetry. apply append_nil_r.
  - rewrite IH. destruct (is_visible m) eqn:Hv.
    + cbn [map join fold_right]. apply append_assoc.
    + rewrite (format_message_hidden _ Hv), append_nil_r. reflexivity.
Qed.

(** [evaluator] quotes the content of the last message whatever its kind:
    called on a history that ends in a tool result, it sends the tool's
    output to the model, though the formatted conversation does not hold
    it. *)
Lemma critic_is_shown_tool_output :
  contains "Paris is the capital of France."
    (format_conversation (messages Examples.after_tool)) = false
  /\ exists system user,
       fst (evaluator Examples.answering_sidekick Examples.after_tool)
       = [InvokeStructuredEvaluator [SystemMessage system; HumanMessage user]]
       /\ contains "Paris is the capital of France." user = true.
Proof.
  split; [vm_compute; reflexivity|].
  eexists _, _. split; [vm_compute; reflexivity|].
  vm_compute. reflexivity.
Qed.

(** The rendering of [format_conversation], message by message. *)
Lemma format_conversation_renders (ms : list Message) :
  format_conversation ms =
  ("Conversation history:" +++ nl +++ nl) +++
  fold_right String.append EmptyString
    (map (fun m =>
            match m with
            | HumanMessage c => "User: " +++ c +++ nl
            | AIMessage EmptyString _ => "Assistant: [Tools use]" +++ nl
            | AIMessage c _ => "Assistant: " +++ c +++ nl
            | SystemMessage _ | ToolMessage _ _ => EmptyString
            end) ms).
Proof.
  unfold format_conversation. rewrite format_loop_join. f_equal.
  induction ms as [|m ms IH]; [reflexivity|].
  destruct m as [c|c|c calls|c id]; cbn [filter is_visible map join fold_right].
  - exact IH.
  - fold (join (map format_message (filter is_visible ms))). rewrite IH. reflexivity.
  - fold (join (map format_message (filter is_visible ms))). rewrite IH.
    destruct c; reflexivity.
  - exact IH.
Qed.

(** A history with a system message and a tool result is rendered as the same
    history without them. *)
Lemma format_conversation_hides_system_and_tool_messages :
  format_conversation (messages Examples.after_answer)
  = format_conversation (messages Examples.after_answer_visible)
  /\ format_conversation (messages Examples.after_answer)
     = "Conversation history:" +++ nl +++ nl +++
       "User: What is the capital of France?" +++ nl +++
       "Assistant: [Tools use]" +++ nl +++
       "Assistant: Paris" +++ nl.
Proof.
  split; vm_compute; reflexivity.
Qed.

(** C10.  For every message list [format_conversation] renders the user and
    assistant messages only, in order, an assistant message without content
    as "[Tools use]"; system messages and tool results leave no trace in it.
    Yet the Critic is shown a tool's output: in a turn handed a list with a
    system message and a pending tool call, the worker passes twice without
    a model call, the tool's result stays the last message, and the
    evaluator quotes it as the assistant's last response. *)
Theorem critic_quotes_tool_output_on_seeded_turn :
  (forall ms : list Message,
     format_conversation ms =
     ("Conversation history:" +++ nl +++ nl) +++
     fold_right String.append EmptyString
       (map (fun m =>
               match m with
               | HumanMessage c => "User: " +++ c +++ nl
               | AIMessage EmptyString _ => "Assistant: [Tools use]" +++ nl
               | AIMessage c _ => "Assistant: " +++ c +++ nl
               | SystemMessage _ | ToolMessage _ _ => EmptyString
               end) ms))
  /\ (forall ms : list Message,
        format_conversation ms =
        format_conversation
          (filter (fun m =>
                     match m with
                     | HumanMessage _ | AIMessage _ _ => true
                     | SystemMessage _ | ToolMessage _ _ => false
                     end) ms))
  /\ exists log final system user,
       ainvoke Examples.answering_sidekick Examples.clock false recursion_limit None
         (superstep_state Examples.seeded Examples.criteria) = (log, Finished final)
       /\ nodes log = [WORKER; TOOLS; WORKER; EVALUATOR]
       /\ worker_calls log = 0%nat
       /\ index_last (messages final)
          = Ok (AIMessage "Evaluator Feedback on this answer: The answer is numeric." [])
       /\ index_penultimate (messages final)
          = Ok (ToolMessage "Paris is the capital of France." "call_1")
       /\ In (InvokeStructuredEvaluator [SystemMessage system; HumanMessage user]) log
       /\ contains "Paris is the capital of France." user = true
       /\ contains "Paris is the capital of France."
            (format_conversation (messages final)) = false.
Proof.
  split; [exact format_conversation_renders|]. split.
  - intro ms. rewrite !format_conversation_renders. f_equal.
    induction ms as [|m ms IH]; [reflexivity|].
    destruct m as [c|c|c calls|c id]; cbn [filter map fold_right];
      rewrite IH; reflexivity.
  - eexists _, _, _, _. split; [vm_compute; reflexivity|].
    split; [vm_compute; reflexivity|].
    split; [vm_compute; reflexivity|].
    split; [vm_compute; reflexivity|].
    split; [vm_compute; reflexivity|].
    split; [do 5 right; left; reflexivity|].
    split; vm_compute; reflexivity.
Qed.

(** ** C8: teardown *)

(** C8, as stated, fails: [cleanup] leaves the browser handle in place, so a
    second call closes it again.  With no event loop running and a driver
    that refuses a second close, the second call raises. *)
Lemma second_cleanup_raises :
  exists s1 done1 s2 done2,
    Teardown.cleanup Examples.strict_runtime [] Examples.answering_sidekick
    = (s1, done1, Ok tt)
    /\ Teardown.cleanup Examples.strict_runtime done1 s1
       = (s2, done2,
          Raise (ExternalError "Target page, context or browser has been closed"))
    /\ done2 = done1 ++ [Teardown.AsyncioRun (Teardown.BrowserClose 1)]
    /\ browser s2 = Some 1%nat.
Proof.
  eexists _, _, _, _. repeat split.
Qed.

(** With an event loop running the second call schedules the same tasks
    again. *)
Lemma second_cleanup_schedules_again :
  Teardown.cleanup Examples.looping_runtime
    [Teardown.CreateTask (Teardown.BrowserClose 1);
     Teardown.CreateTask (Teardown.PlaywrightStop 2)]
    Examples.answering_sidekick
  = (Examples.answering_sidekick,
     [Teardown.CreateTask (Teardown.BrowserClose 1);
      Teardown.CreateTask (Teardown.PlaywrightStop 2);
      Teardown.CreateTask (Teardown.BrowserClose 1);
      Teardown.CreateTask (Teardown.PlaywrightStop 2)],
     Ok tt).
Proof.
  reflexivity.
Qed.

(** Through [free_resources] the error of the second close is printed, not
    raised, and the driver is not stopped again. *)
Lemma free_resources_prints_the_error :
  Teardown.free_resources Examples.strict_runtime
    [Teardown.AsyncioRun (Teardown.BrowserClose 1);
     Teardown.AsyncioRun (Teardown.PlaywrightStop 2)]
    (Some Examples.answering_sidekick)
  = (Some Examples.answering_sidekick,
     [Teardown.AsyncioRun (Teardown.BrowserClose 1);
      Teardown.AsyncioRun (Teardown.PlaywrightStop 2);
      Teardown.Printed "Cleaning up";
      Teardown.AsyncioRun (Teardown.BrowserClose 1);
      Teardown.Printed
        "Exception during cleanup: Target page, context or browser has been closed"]).
Proof.
  reflexivity.
Qed.

(** C8, amended.  [cleanup] never changes the instance, so the handle stays
    set and a repeated call acts as the first did.  Without a browser handle
    it does nothing.  With one and an event loop running it schedules the
    close of the browser, then the stop of the driver when one is held, and
    returns normally.  With one and no loop running it first runs the close
    to completion; an error of the close propagates and the driver is left
    alone; otherwise it runs the stop of the driver, when one is held, and
    the outcome of the stop is the outcome of [cleanup].  [free_resources]
    prints, calls [cleanup] when given an instance, prints the error if
    [cleanup] raised, and returns. *)
Theorem cleanup_releases_on_every_call :
  forall (rt : Teardown.Runtime) (done : list Teardown.Action) (self : Sidekick),
    Teardown.cleanup rt done self =
      (self,
       done ++
       match browser self with
       | None => []
       | Some b =>
           if Teardown.loop_running rt then
             Teardown.CreateTask (Teardown.BrowserClose b) ::
             match playwright self with
             | Some p => [Teardown.CreateTask (Teardown.PlaywrightStop p)]
             | None => []
             end
           else
             Teardown.AsyncioRun (Teardown.BrowserClose b) ::
             match Teardown.asyncio_run rt done (Teardown.BrowserClose b), playwright self with
             | Ok _, Some p => [Teardown.AsyncioRun (Teardown.PlaywrightStop p)]
             | _, _ => []
             end
       end,
       match browser self with
       | None => Ok tt
       | Some b =>
           if Teardown.loop_running rt then Ok tt
           else
             match Teardown.asyncio_run rt done (Teardown.BrowserClose b), playwright self with
             | Raise e, _ => Raise e
             | Ok _, Some p =>
                 Teardown.asyncio_run rt
                   (done ++ [Teardown.AsyncioRun (Teardown.BrowserClose b)])
                   (Teardown.PlaywrightStop p)
             | Ok _, None => Ok tt
             end
       end)
    /\ browser (fst (fst (Teardown.cleanup rt done self))) = browser self
    /\ (if Teardown.loop_running rt
        then
          let scheduled :=
            match browser self with
            | None => []
            | Some b =>
                Teardown.CreateTask (Teardown.BrowserClose b) ::
                match playwright self with
                | Some p => [Teardown.CreateTask (Teardown.PlaywrightStop p)]
                | None => []
                end
            end in
          Teardown.cleanup rt (snd (fst (Teardown.cleanup rt done self)))
            (fst (fst (Teardown.cleanup rt done self)))
          = (self, done ++ scheduled ++ scheduled, Ok tt)
        else
          fst (Teardown.cleanup rt (snd (fst (Teardown.cleanup rt done self)))
                 (fst (fst (Teardown.cleanup rt done self))))
          = (self,
             snd (fst (Teardown.cleanup rt done self)) ++
             match browser self with
             | None => []
             | Some b =>
                 Teardown.AsyncioRun (Teardown.BrowserClose b) ::
                 match Teardown.asyncio_run rt (snd (fst (Teardown.cleanup rt done self)))
                         (Teardown.BrowserClose b), playwright self with
                 | Ok _, Some p => [Teardown.AsyncioRun (Teardown.PlaywrightStop p)]
                 | _, _ => []
                 end
             end))
    /\ Teardown.free_resources rt done None
       = (None, done ++ [Teardown.Printed "Cleaning up"])
    /\ Teardown.free_resources rt done (Some self)
       = (Some self,
          snd (fst (Teardown.cleanup rt (done ++ [Teardown.Printed "Cleaning up"]) self)) ++
          match snd (Teardown.cleanup rt (done ++ [Teardown.Printed "Cleaning up"]) self) with
          | Ok _ => []
          | Raise e => [Teardown.Printed ("Exception during cleanup: " +++ exn_str e)]
          end).
Proof.
  intros rt done self.
  assert (Hcall : forall d,
             Teardown.cleanup rt d self =
             (self,
              d ++
              match browser self with
              | None => []
              | Some b =>
                  if Teardown.loop_running rt then
                    Teardown.CreateTask (Teardown.BrowserClose b) ::
                    match playwright self with
                    | Some p => [Teardown.CreateTask (Teardown.PlaywrightStop p)]
                    | None => []
                    end
                  else
                    Teardown.AsyncioRun (Teardown.BrowserClose b) ::
                    match Teardown.asyncio_run rt d (Teardown.BrowserClose b), playwright self with
                    | Ok _, Some p => [Teardown.AsyncioRun (Teardown.PlaywrightStop p)]
                    | _, _ => []
                    end
              end,
              match browser self with
              | None => Ok tt
              | Some b =>
                  if Teardown.loop_running rt then Ok tt
                  else
                    match Teardown.asyncio_run rt d (Teardown.BrowserClose b), playwright self with
                    | Raise e, _ => Raise e
                    | Ok _, Some p =>
                        Teardown.asyncio_run rt
                          (d ++ [Teardown.AsyncioRun (Teardown.BrowserClose b)])
                          (Teardown.PlaywrightStop p)
                    | Ok _, None => Ok tt
                    end
              end)).
  { intro d. unfold Teardown.cleanup.
    destruct (browser self) as [b|]; [|rewrite app_nil_r; reflexivity].
    destruct (Teardown.loop_running rt).
    - destruct (playwright self) as [p|]; [rewrite <- app_assoc|]; reflexivity.
    - destruct (Teardown.asyncio_run rt d (Teardown.BrowserClose b)) as [[]|e];
        [|reflexivity].
      destruct (playwright self) as [p|]; [rewrite <- app_assoc|]; reflexivity. }
  split; [apply Hcall|].
  split; [rewrite Hcall; reflexivity|].
  split.
  { rewrite (Hcall done). cbn [fst snd]. rewrite Hcall.
    destruct (Teardown.loop_running rt); cbn [fst].
    - destruct (browser self) as [b|]; rewrite <- app_assoc; reflexivity.
    - reflexivity. }
  split; [reflexivity|].
  unfold Teardown.free_resources. rewrite Hcall. cbn [fst snd].
  match goal with
  | |- context [match ?r with Ok _ => (_, _) | Raise _ => _ end] =>
      destruct r as [[]|e]; [rewrite app_nil_r|]; reflexivity
  end.
Qed.

(** ** C9: the calendar functions *)

(** C9 fails on the code.  [list_upcoming_events] has no handler: an API
    error, or an event without a title, raises into the caller.
    [create_calendar_event] turns the API error into a text, but builds the
    service outside its [try]: a missing token file raises. *)
Theorem calendar_functions_raise :
  Calendar.list_upcoming_events Examples.unauthorized None 5
    = Raise (HttpError "401 Unauthorized")
  /\ Calendar.list_upcoming_events Examples.untitled None 5
    = Raise (KeyError "summary")
  /\ Calendar.list_upcoming_events Examples.no_token None 5
    = Raise (ExternalError "No such file or directory: token.json")
  /\ Calendar.create_calendar_event Examples.no_token
       "Standup" "2025-05-21T09:00:00" "2025-05-21T09:15:00" EmptyString None "UTC"
    = Raise (ExternalError "No such file or directory: token.json")
  /\ Calendar.create_calendar_event Examples.unauthorized
       "Standup" "2025-05-21T09:00:00" "2025-05-21T09:15:00" EmptyString None "UTC"
    = Ok "Calendar API error: 401 Unauthorized"%string.
Proof.
  repeat split.
Qed.

(** Where the calendar answers, both functions return a text. *)
Lemma calendar_functions_return_text :
  Calendar.list_upcoming_events Examples.working None 5
    = Ok ("2025-05-21" +++ Calendar.separator +++ "Standup")
  /\ Calendar.create_calendar_event Examples.working
       "Standup" "2025-05-21T09:00:00" "2025-05-21T09:15:00" EmptyString None "UTC"
    = Ok "Event created: https://calendar.example/event"%string.
Proof.
  repeat split.
Qed.

(** Once the service is built, [create_calendar_event] returns a text
    whatever the API does. *)
Lemma create_calendar_event_total (g : Calendar.Google)
    (summary start_iso end_iso description : string)
    (calendar_id : option string) (timezone : string) :
  Calendar._get_calendar_service g = Ok tt ->
  exists text,
    Calendar.create_calendar_event g summary start_iso end_iso description
      calendar_id timezone = Ok text.
Proof.
  intro Hservice. unfold Calendar.create_calendar_event. rewrite Hservice.
  destruct (Calendar.events_insert g _ _) as [link|[]]; eexists; reflexivity.
Qed.

(** * Further properties of the loop *)

Section RunFacts.

Variable self : Sidekick.
Variable now : string.
Variable keeps : bool.

Lemma nodes_app l1 l2 : nodes (l1 ++ l2) = nodes l1 ++ nodes l2.
Proof.
  induction l1 as [|[] l1 IH]; simpl; congruence.
Qed.

Lemma nodes_without_entries log :
  (forall m, entries m log = 0%nat) -> nodes log = [].
Proof.
  induction log as [|e log IH]; intro H; [reflexivity|].
  destruct e as [n| | | |];
    try (simpl; apply IH; intro m; specialize (H m); unfold entries in *;
         simpl in H; exact H).
  specialize (H n). rewrite entries_enter in H.
  destruct n; simpl in H; discriminate.
Qed.

Lemma run_node_nodes n st log r :
  run_node self now keeps n st = (log, r) -> nodes log = [].
Proof.
  intro H. apply nodes_without_entries. intro m.
  exact (run_node_log _ _ _ _ _ _ _ m H).
Qed.

Lemma next_node_edge n st n' :
  n <> END -> next_node n st = Ok n' -> n' = END \/ edge_ok n n' = true.
Proof.
  intros Hn H. destruct n; try congruence.
  - destruct (next_after_worker _ _ H) as [-> | ->]; auto.
  - simpl in H. inversion H. auto.
  - destruct (next_after_evaluator _ _ H) as [-> | [-> _]]; auto.
Qed.

Lemma Node_eqb_refl n : Node_eqb n n = true.
Proof. destruct n; reflexivity. Qed.

Lemma found_system_overwrite text ms :
  Worker.found_system_message (Worker.overwrite_system text ms) =
  Worker.found_system_message ms.
Proof.
  unfold Worker.found_system_message, Worker.overwrite_system.
  induction ms as [|[] ms IH]; simpl; congruence.
Qed.

Lemma erase_overwrite text ms :
  map erase_system (Worker.overwrite_system text ms) = map erase_system ms.
Proof.
  unfold Worker.overwrite_system.
  induction ms as [|[] ms IH]; simpl; congruence.
Qed.

(** What one node does to the messages, on either engine: it appends, and
    it rewrites the content of system messages; it neither adds nor removes
    a system message. *)
Lemma run_node_appends n st log st' :
  run_node self now keeps n st = (log, Ok st') ->
  (exists extra,
      map erase_system (messages st') = map erase_system (messages st) ++ extra)
  /\ Worker.found_system_message (messages st') =
     Worker.found_system_message (messages st).
Proof.
  intro H. destruct n.
  - simpl in H. unfold worker in H.
    destruct (Worker.found_system_message (messages st)) eqn:Hfound;
      simpl in H; unfold_m.
    + inversion H; subst. simpl. rewrite erase_overwrite, found_system_overwrite.
      split; [exists []; symmetry; apply app_nil_r | exact Hfound].
    + destruct (worker_llm_with_tools self _) as [r|]; simpl in H;
        inversion H; subst. simpl.
      rewrite map_app, erase_overwrite, found_system_app, found_system_overwrite, Hfound.
      split; [eexists; reflexivity | reflexivity].
  - destruct (tools_step _ _ _ _ _ _ H) as (text & calls & _ & ->). simpl.
    rewrite map_app, found_system_app. split; [eexists; reflexivity|].
    replace (Worker.found_system_message
               (map (fun c => ToolMessage (tools self c) (tc_id c)) calls))
      with false; [apply orb_false_r|].
    clear. unfold Worker.found_system_message. induction calls; simpl; auto.
  - destruct (evaluator_step _ _ _ _ _ _ H) as (r & ->). simpl.
    rewrite map_app, found_system_app. split; [eexists; reflexivity|].
    apply orb_false_r.
  - simpl in H. inversion H; subst.
    split; [exists []; symmetry; apply app_nil_r | reflexivity].
Qed.

(** The prompts one node sends to the worker model. *)
Lemma run_node_prompts n st log r :
  run_node self now keeps n st = (log, r) ->
  forallb well_prompted log = true
  /\ (Worker.found_system_message (messages st) = true -> worker_calls log = 0%nat).
Proof.
  destruct n; simpl; unfold worker, tool_node, evaluator, eval_result,
    evaluator_fallback; unfold_m; intro H.
  - destruct (Worker.found_system_message (messages st)) eqn:Hfound; simpl in H.
    + inversion H; subst. split; reflexivity.
    + assert (Hlog : log = [InvokeWorkerLLM
                 (Worker.local_messages (Worker.system_message now st) (messages st))])
        by (destruct (worker_llm_with_tools self _); inversion H; reflexivity).
      rewrite Hlog. unfold Worker.local_messages. rewrite Hfound. simpl.
      rewrite found_system_overwrite, Hfound. split; [reflexivity | discriminate].
  - destruct (index_last (messages st)) as [[]|]; simpl in H;
      inversion H; subst; try (split; reflexivity).
    rewrite app_nil_r. unfold worker_calls.
    split; [|intros _]; induction tool_calls; simpl; auto.
  - destruct (index_last (messages st)) as [last|]; simpl in H;
      [|inversion H; split; reflexivity].
    destruct (evaluator_llm_with_output self _); simpl in H;
      [inversion H; split; reflexivity|].
    destruct (evaluator_llm self _); simpl in H; inversion H; split; reflexivity.
  - inversion H; split; reflexivity.
Qed.

Lemma worker_calls_app l1 l2 :
  worker_calls (l1 ++ l2) = (worker_calls l1 + worker_calls l2)%nat.
Proof.
  unfold worker_calls. rewrite filter_app, length_app. reflexivity.
Qed.

End RunFacts.

(** X1.  The nodes a run executes follow the edges of [build_graph]: the
    worker is followed by the tools or the evaluator, the tools by the
    worker, the evaluator by the worker; the evaluator is never entered
    from the tools, and no node runs twice in a row. *)
Theorem run_follows_edges :
  forall (self : Sidekick) (now : string) (keeps : bool)
         (steps : nat) (n : Node) (st : State),
    starts_at n (nodes (fst (run_graph self now keeps steps n st))) = true.
Proof.
  intros self now keeps. induction steps as [|k IH]; intros n st.
  - destruct n; reflexivity.
  - assert (Hend : n = END \/ n <> END) by (destruct n; auto; right; discriminate).
    destruct Hend as [->|Hn]; [reflexivity|].
    rewrite (run_graph_step _ _ _ _ _ _ Hn).
    destruct (run_node self now keeps n st) as [nlog [st'|e]] eqn:Hnode.
    2:{ simpl. rewrite (run_node_nodes _ _ _ _ _ _ _ Hnode), Node_eqb_refl. reflexivity. }
    destruct (next_node n st') as [n'|e] eqn:Hnext.
    2:{ simpl. rewrite (run_node_nodes _ _ _ _ _ _ _ Hnode), Node_eqb_refl. reflexivity. }
    specialize (IH n' st').
    destruct (run_graph self now keeps k n' st') as [log' out] eqn:Hrest.
    simpl in *. rewrite nodes_app, (run_node_nodes _ _ _ _ _ _ _ Hnode), Node_eqb_refl.
    simpl. destruct (nodes log') as [|m rest] eqn:Hnodes; [reflexivity|].
    simpl in IH. apply andb_true_iff in IH. destruct IH as [Hm Hpath].
    assert (m = n') by (destruct n', m; simpl in Hm; congruence). subst m.
    simpl. rewrite Hpath, andb_true_r.
    destruct (next_node_edge _ _ _ Hn Hnext) as [-> | Hedge]; [|exact Hedge].
    rewrite run_graph_end in Hrest. inversion Hrest; subst. discriminate.
Qed.

(** X2.  Every prompt the worker model receives, in any run from any
    state, has exactly one system message, and has it in front. *)
Theorem worker_prompts_have_one_system_message :
  forall (self : Sidekick) (now : string) (keeps : bool)
         (steps : nat) (n : Node) (st : State),
    forallb well_prompted (fst (run_graph self now keeps steps n st)) = true.
Proof.
  intros self now keeps. induction steps as [|k IH]; intros n st.
  - destruct n; reflexivity.
  - assert (Hend : n = END \/ n <> END) by (destruct n; auto; right; discriminate).
    destruct Hend as [->|Hn]; [reflexivity|].
    rewrite (run_graph_step _ _ _ _ _ _ Hn).
    destruct (run_node self now keeps n st) as [nlog [st'|e]] eqn:Hnode;
      pose proof (proj1 (run_node_prompts _ _ _ _ _ _ _ Hnode)) as Hnlog.
    2:{ simpl. exact Hnlog. }
    destruct (next_node n st') as [n'|e] eqn:Hnext; [|simpl; exact Hnlog].
    specialize (IH n' st').
    destruct (run_graph self now keeps k n' st') as [log' out] eqn:Hrest.
    simpl in *. rewrite forallb_app, Hnlog, IH. reflexivity.
Qed.

(** X3.  When the messages a run starts from hold a system message, the
    worker model is not invoked at all, however many nodes the run
    executes. *)
Theorem system_message_silences_worker :
  forall (self : Sidekick) (now : string) (keeps : bool)
         (steps : nat) (n : Node) (st : State),
    Worker.found_system_message (messages st) = true ->
    worker_calls (fst (run_graph self now keeps steps n st)) = 0%nat.
Proof.
  intros self now keeps. induction steps as [|k IH]; intros n st Hfound.
  - destruct n; reflexivity.
  - assert (Hend : n = END \/ n <> END) by (destruct n; auto; right; discriminate).
    destruct Hend as [->|Hn]; [reflexivity|].
    rewrite (run_graph_step _ _ _ _ _ _ Hn).
    destruct (run_node self now keeps n st) as [nlog [st'|e]] eqn:Hnode;
      pose proof (proj2 (run_node_prompts _ _ _ _ _ _ _ Hnode) Hfound) as Hnlog.
    2:{ simpl. exact Hnlog. }
    destruct (next_node n st') as [n'|e] eqn:Hnext; [|simpl; exact Hnlog].
    assert (Hfound' : Worker.found_system_message (messages st') = true)
      by (rewrite (proj2 (run_node_appends _ _ _ _ _ _ _ Hnode)); exact Hfound).
    specialize (IH n' st' Hfound').
    destruct (run_graph self now keeps k n' st') as [log' out] eqn:Hrest.
    simpl in *. change (worker_calls (nlog ++ log') = 0%nat).
    rewrite worker_calls_app, Hnlog, IH. reflexivity.
Qed.

Lemma system_message_silences_worker_witness :
  Worker.found_system_message
    (messages (turn_state true None
                 (superstep_state Examples.system_seeded Examples.criteria))) = true
  /\ worker_calls
       (fst (run_graph Examples.rejected_sidekick Examples.clock true 40 WORKER
               (turn_state true None
                  (superstep_state Examples.system_seeded Examples.criteria)))) = 0%nat.
Proof.
  split; [reflexivity|].
  apply (system_message_silences_worker
           Examples.rejected_sidekick Examples.clock true 40 WORKER).
  reflexivity.
Defined.

(** X4.  A run only appends to the history and rewrites the content of
    system messages: up to that content, the messages it started from are a
    prefix of the messages it ends with, and it ends with a system message
    exactly when it started with one. *)
Theorem run_appends_to_history :
  forall (self : Sidekick) (now : string) (keeps : bool)
         (steps : nat) (n : Node) (st : State) (log : list Event) (final : State),
    run_graph self now keeps steps n st = (log, Finished final) ->
    (exists extra,
        map erase_system (messages final) = map erase_system (messages st) ++ extra)
    /\ Worker.found_system_message (messages final) =
       Worker.found_system_message (messages st).
Proof.
  intros self now keeps. induction steps as [|k IH]; intros n st log final Hrun.
  - destruct n; simpl in Hrun; inversion Hrun; subst.
    split; [exists []; symmetry; apply app_nil_r | reflexivity].
  - assert (Hend : n = END \/ n <> END) by (destruct n; auto; right; discriminate).
    destruct Hend as [->|Hn].
    { simpl in Hrun. inversion Hrun; subst.
      split; [exists []; symmetry; apply app_nil_r | reflexivity]. }
    destruct (run_graph_finished_inv _ _ _ _ _ _ _ _ Hn Hrun)
      as (nlog & st' & n' & log' & Hnode & _ & Hrest & _).
    destruct (run_node_appends _ _ _ _ _ _ _ Hnode) as ((extra & Hnow) & Hfound).
    destruct (IH _ _ _ _ Hrest) as ((extra' & Hlater) & Hfound').
    split; [|congruence].
    exists (extra ++ extra'). rewrite Hlater, Hnow, app_assoc. reflexivity.
Qed.

Lemma run_appends_to_history_witness :
  (exists extra,
      map erase_system
        [HumanMessage "What is 2+2?"; AIMessage "4" [];
         AIMessage "Evaluator Feedback on this answer: The answer is numeric." []]
      = map erase_system [HumanMessage "What is 2+2?"] ++ extra)
  /\ Worker.found_system_message
       [HumanMessage "What is 2+2?"; AIMessage "4" [];
        AIMessage "Evaluator Feedback on this answer: The answer is numeric." []]
     = Worker.found_system_message [HumanMessage "What is 2+2?"].
Proof.
  apply (run_appends_to_history Examples.answering_sidekick Examples.clock true 2 WORKER
           (Examples.state_of [HumanMessage "What is 2+2?"])
           (fst (run_graph Examples.answering_sidekick Examples.clock true 2 WORKER
                   (Examples.state_of [HumanMessage "What is 2+2?"])))
           {| messages :=
                [HumanMessage "What is 2+2?"; AIMessage "4" [];
                 AIMessage "Evaluator Feedback on this answer: The answer is numeric." []];
              success_criteria := "a numeric answer";
              feedback_on_work := Some "The answer is numeric."%string;
              success_criteria_met := true;
              user_input_needed := false;
              iterations := Some 1 |}).
  vm_compute. reflexivity.
Defined.

Lemma index_last_nonempty {A} (xs : list A) :
  xs <> [] -> exists x, index_last xs = Ok x.
Proof.
  intro H. unfold index_last. destruct (rev xs) as [|x l] eqn:Hrev.
  - apply (f_equal (@rev A)) in Hrev. rewrite rev_involutive in Hrev. contradiction.
  - eauto.
Qed.

(** After the worker node the history is not empty. *)
Lemma worker_leaves_a_message self now keeps st log st' :
  run_node self now keeps WORKER st = (log, Ok st') ->
  exists last, index_last (messages st') = Ok last.
Proof.
  intro H. simpl in H. unfold worker in H.
  destruct (Worker.found_system_message (messages st)) eqn:Hfound;
    simpl in H; unfold_m.
  - inversion H; subst. simpl. apply index_last_nonempty.
    destruct (messages st); [discriminate Hfound | discriminate].
  - destruct (worker_llm_with_tools self _) as [r|]; simpl in H; inversion H; subst.
    simpl. rewrite index_last_snoc. eauto.
Qed.

(** The loop has one failure of its own, the recursion limit. *)
Lemma run_raises_from_models self now keeps steps :
  forall n st log e,
    match n with
    | TOOLS => exists text calls, index_last (messages st) = Ok (AIMessage text calls)
    | EVALUATOR => exists last, index_last (messages st) = Ok last
    | _ => True
    end ->
    run_graph self now keeps steps n st = (log, Raised e) ->
    (e = GraphRecursionError /\ length (nodes log) = steps)
    \/ (exists prompt, worker_llm_with_tools self prompt = Raise e)
    \/ (exists prompt, evaluator_llm self prompt = Raise e).
Proof.
  induction steps as [|k IH]; intros n st log e Hready Hrun.
  - destruct n; simpl in Hrun; inversion Hrun; subst; left; split; reflexivity.
  - assert (Hend : n = END \/ n <> END) by (destruct n; auto; right; discriminate).
    destruct Hend as [->|Hn]; [simpl in Hrun; inversion Hrun|].
    rewrite (run_graph_step _ _ _ _ _ _ Hn) in Hrun.
    destruct (run_node self now keeps n st) as [nlog [st'|e']] eqn:Hnode.
    + destruct (next_node n st') as [n'|e'] eqn:Hnext.
      * destruct (run_graph self now keeps k n' st') as [log' out] eqn:Hrest.
        inversion Hrun; subst.
        assert (Hnext_ready :
                  match n' with
                  | TOOLS => exists text calls,
                      index_last (messages st') = Ok (AIMessage text calls)
                  | EVALUATOR => exists last, index_last (messages st') = Ok last
                  | _ => True
                  end).
        { destruct n; try congruence.
          -- destruct (worker_leaves_a_message _ _ _ _ _ _ Hnode) as (last & Hlast).
             simpl in Hnext. unfold worker_router in Hnext. rewrite Hlast in Hnext.
             destruct last as [c|c|c [|call calls]|c i]; simpl in Hnext;
               inversion Hnext; subst; eauto.
          -- simpl in Hnext. inversion Hnext. exact I.
          -- destruct (next_after_evaluator _ _ Hnext) as [-> | [-> _]]; exact I. }
        destruct (IH n' st' log' e Hnext_ready Hrest) as [[He Hlen] | Hmodel];
          [left | right; exact Hmodel].
        split; [exact He|].
        cbn [nodes length]. rewrite nodes_app, length_app.
        rewrite (run_node_nodes _ _ _ _ _ _ _ Hnode), Hlen. reflexivity.
      * exfalso. destruct n; try congruence.
        -- destruct (worker_leaves_a_message _ _ _ _ _ _ Hnode) as (last & Hlast).
           simpl in Hnext. unfold worker_router in Hnext. rewrite Hlast in Hnext.
           destruct (has_tool_calls last); discriminate.
        -- discriminate.
        -- simpl in Hnext. unfold route_based_on_evaluation in Hnext.
           destruct (max_iterations <=? int_or0 (iterations st')); [discriminate|].
           destruct (success_criteria_met st' || user_input_needed st'); discriminate.
    + inversion Hrun; subst. clear Hrun IH. right.
      destruct n; try congruence; simpl in Hnode.
      * unfold worker in Hnode.
        destruct (Worker.found_system_message (messages st)); simpl in Hnode;
          unfold_m; [inversion Hnode|].
        destruct (worker_llm_with_tools self _) as [r|ex] eqn:Hllm;
          simpl in Hnode; inversion Hnode; subst. left. eauto.
      * destruct Hready as (text & calls & Hlast). unfold tool_node in Hnode.
        unfold_m. rewrite Hlast in Hnode. simpl in Hnode. inversion Hnode.
      * destruct Hready as (last & Hlast).
        unfold evaluator, eval_result, evaluator_fallback in Hnode.
        unfold_m. rewrite Hlast in Hnode. simpl in Hnode.
        destruct (evaluator_llm_with_output self _); simpl in Hnode;
          [inversion Hnode|].
        destruct (evaluator_llm self _) as [raw|ex] eqn:Hraw; simpl in Hnode;
          inversion Hnode; subst. right. eauto.
Qed.

(** X5.  A turn fails only at the recursion limit or when a model call
    fails: the exception that ends a run is [GraphRecursionError], raised
    after as many node executions as the limit allows, or it was raised by
    the worker model or by the evaluator's plain-text model.  The routers,
    the evaluator's reading of the last message and the tool node raise
    nothing in a run that starts at the worker, and a failure of the
    structured evaluator alone never ends a run. *)
Theorem run_fails_only_with_a_model :
  forall (self : Sidekick) (now : string) (keeps : bool)
         (steps : nat) (st : State) (log : list Event) (e : Exn),
    run_graph self now keeps steps WORKER st = (log, Raised e) ->
    (e = GraphRecursionError /\ length (nodes log) = steps)
    \/ (exists prompt, worker_llm_with_tools self prompt = Raise e)
    \/ (exists prompt, evaluator_llm self prompt = Raise e).
Proof.
  intros self now keeps steps st log e Hrun.
  exact (run_raises_from_models self now keeps steps WORKER st log e I Hrun).
Qed.

Lemma run_fails_only_with_a_model_witness :
  run_graph Cases.failing_sidekick Examples.clock false recursion_limit WORKER
    (Examples.state_of [HumanMessage "What is 2+2?"])
  = ([EnterNode WORKER;
      InvokeWorkerLLM
        [SystemMessage (Worker.system_message Examples.clock
                          (Examples.state_of [HumanMessage "What is 2+2?"]));
         HumanMessage "What is 2+2?"]],
     Raised (ExternalError "rate limit exceeded"))
  /\ ((ExternalError "rate limit exceeded" = GraphRecursionError
       /\ length (nodes [EnterNode WORKER;
                         InvokeWorkerLLM
                           [SystemMessage (Worker.system_message Examples.clock
                                             (Examples.state_of [HumanMessage "What is 2+2?"]));
                            HumanMessage "What is 2+2?"]]) = recursion_limit)
      \/ (exists prompt,
             worker_llm_with_tools Cases.failing_sidekick prompt
             = Raise (ExternalError "rate limit exceeded"))
      \/ (exists prompt,
             evaluator_llm Cases.failing_sidekick prompt
             = Raise (ExternalError "rate limit exceeded"))).
Proof.
  split; [vm_compute; reflexivity|].
  apply (run_fails_only_with_a_model Cases.failing_sidekick Examples.clock false
           recursion_limit (Examples.state_of [HumanMessage "What is 2+2?"])).
  vm_compute. reflexivity.
Defined.

(** X6.  Whenever [run_superstep] returns, the graph has reached [END]
    with a feedback text on the state, and the history has grown by three
    entries: the caller's message as [worker] left it, the content of the
    second-to-last message of the run, and the evaluator's note, "Evaluator
    Feedback on this answer: " followed by that feedback text. *)
Theorem run_superstep_ends_with_feedback :
  forall (self : Sidekick) (now : string) (keeps : bool)
         (saved : option State) (message : Payload) (criteria : option string)
         (history returned : list ChatEntry) (log : list Event),
    run_superstep self now keeps saved message criteria history
    = (log, Finished returned) ->
    exists result st0 m2 fb,
      ainvoke self now keeps recursion_limit saved (superstep_state message criteria)
      = (log, Finished result)
      /\ feedback_on_work result = Some fb
      /\ index_penultimate (messages result) = Ok m2
      /\ index_last (messages result)
         = Ok (AIMessage ("Evaluator Feedback on this answer: " +++ fb) [])
      /\ returned =
           history ++
           [ {| role := "user";
                entry_content :=
                  overwritten_payload (Worker.system_message now st0) message |};
             {| role := "assistant"; entry_content := Text (content m2) |};
             {| role := "assistant";
                entry_content := Text ("Evaluator Feedback on this answer: " +++ fb) |} ].
Proof.
  intros self now keeps saved message criteria history returned log.
  unfold run_superstep. generalize recursion_limit. intros steps Hrun.
  destruct (ainvoke self now keeps steps saved (superstep_state message criteria))
    as [log0 [result|e]] eqn:Hinvoke; [|discriminate Hrun].
  destruct (held_payload_overwritten _ _ _ _ _ _ _ _ _ Hinvoke) as (st0 & Hheld).
  destruct (ainvoke_finished_after_evaluator _ _ _ _ _ _ _ _ Hinvoke)
    as (before & m2 & fb & Hms & Hfb).
  assert (Hlast : index_last (messages result)
                  = Ok (AIMessage ("Evaluator Feedback on this answer: " +++ fb) [])).
  { rewrite Hms.
    change (before ++ [m2; AIMessage ("Evaluator Feedback on this answer: " +++ fb) []])
      with (before ++ [m2] ++ [AIMessage ("Evaluator Feedback on this answer: " +++ fb) []]).
    rewrite app_assoc. apply index_last_snoc. }
  assert (Hpen : index_penultimate (messages result) = Ok m2)
    by (rewrite Hms; apply index_penultimate_snoc).
  rewrite Hpen, Hlast, Hheld in Hrun. inversion Hrun; subst.
  exists result, st0, m2, fb. repeat split; assumption.
Qed.

Lemma run_superstep_ends_with_feedback_witness :
  exists result st0 m2 fb,
    ainvoke Examples.answering_sidekick Examples.clock false recursion_limit None
      (superstep_state Examples.system_seeded Examples.criteria)
    = (fst (run_superstep Examples.answering_sidekick Examples.clock false None
              Examples.system_seeded Examples.criteria []),
       Finished result)
    /\ feedback_on_work result = Some fb
    /\ index_penultimate (messages result) = Ok m2
    /\ index_last (messages result)
       = Ok (AIMessage ("Evaluator Feedback on this answer: " +++ fb) [])
    /\ [ {| role := "user";
            entry_content :=
              Messages
                [SystemMessage
                   (Worker.system_message Examples.clock
                      (Examples.state_of [HumanMessage "What is 2+2?"]));
                 HumanMessage "What is 2+2?"] |};
         {| role := "assistant"; entry_content := Text "What is 2+2?" |};
         {| role := "assistant";
            entry_content :=
              Text "Evaluator Feedback on this answer: The answer is numeric." |} ]
       = [] ++
         [ {| role := "user";
              entry_content :=
                overwritten_payload (Worker.system_message Examples.clock st0)
                  Examples.system_seeded |};
           {| role := "assistant"; entry_content := Text (content m2) |};
           {| role := "assistant";
              entry_content := Text ("Evaluator Feedback on this answer: " +++ fb) |} ].
Proof.
  apply (run_superstep_ends_with_feedback
           Examples.answering_sidekick Examples.clock false None
           Examples.system_seeded Examples.criteria []).
  vm_compute. reflexivity.
Defined.

(** X7.  After a fallback verdict the turn ends or goes on according to
    the raw text alone: the evaluator node leaves [success_criteria_met]
    false, and the edge out of it leads to [END] exactly when the counter
    has reached ten or the raw text holds a question mark. *)
Theorem fallback_routes_on_question_mark :
  forall (self : Sidekick) (now : string) (keeps : bool) (st : State)
         (last : Message) (e : Exn) (raw_text : string),
    index_last (messages st) = Ok last ->
    evaluator_llm_with_output self (evaluator_messages st (content last)) = Raise e ->
    evaluator_llm self (evaluator_messages st (content last)) = Ok raw_text ->
    exists log st',
      run_node self now keeps EVALUATOR st = (log, Ok st')
      /\ success_criteria_met st' = false
      /\ feedback_on_work st' = Some raw_text
      /\ next_node EVALUATOR st' =
           Ok (if (10 <=? int_or0 (iterations st)) || contains "?" raw_text
               then END else WORKER).
Proof.
  intros self now keeps st last e raw_text Hlast Hstructured Hraw.
  simpl. unfold evaluator, eval_result, evaluator_fallback. unfold_m.
  rewrite Hlast. simpl. rewrite Hstructured. simpl. rewrite Hraw. simpl.
  eexists _, _. split; [reflexivity|]. simpl.
  rewrite user_needed_is_question_mark.
  unfold route_based_on_evaluation, max_iterations. simpl.
  repeat split.
  destruct (10 <=? int_or0 (iterations st)); simpl; [reflexivity|].
  destruct (contains "?" raw_text); reflexivity.
Qed.

Lemma fallback_routes_on_question_mark_witness :
  exists log st',
    run_node Examples.unparsable_sidekick Examples.clock true EVALUATOR Examples.answered
    = (log, Ok st')
    /\ success_criteria_met st' = false
    /\ feedback_on_work st' = Some "Is the task finished?"%string
    /\ next_node EVALUATOR st' =
         Ok (if (10 <=? int_or0 (iterations Examples.answered))
                || contains "?" "Is the task finished?"
             then END else WORKER).
Proof.
  apply (fallback_routes_on_question_mark
           Examples.unparsable_sidekick Examples.clock true Examples.answered
           (AIMessage "4" []) (ValueError "Invalid json output")
           "Is the task finished?");
    reflexivity.
Defined.

(** X8.  Inserting or overwriting the system message twice is the same as
    doing it once with the later text: no second system message appears,
    and the messages that are not system messages are kept as they are, in
    their order. *)
Theorem system_message_last_write_wins :
  forall (t1 t2 : string) (ms : list Message),
    Worker.local_messages t2 (Worker.local_messages t1 ms) = Worker.local_messages t2 ms
    /\ Worker.overwrite_system t2 (Worker.overwrite_system t1 ms)
       = Worker.overwrite_system t2 ms
    /\ filter (fun m => negb (is_system m)) (Worker.local_messages t1 ms)
       = filter (fun m => negb (is_system m)) ms.
Proof.
  intros t1 t2 ms.
  assert (Htwice : Worker.overwrite_system t2 (Worker.overwrite_system t1 ms)
                   = Worker.overwrite_system t2 ms).
  { unfold Worker.overwrite_system. rewrite map_map.
    apply map_ext. intros []; reflexivity. }
  assert (Hkeep : forall t,
             filter (fun m => negb (is_system m)) (Worker.overwrite_system t ms)
             = filter (fun m => negb (is_system m)) ms).
  { intro t. unfold Worker.overwrite_system. clear Htwice.
    induction ms as [|[] ms IH]; simpl; congruence. }
  repeat split; auto.
  - unfold Worker.local_messages.
    destruct (Worker.found_system_message ms) eqn:Hfound.
    + rewrite found_system_overwrite, Hfound. exact Htwice.
    + simpl. rewrite Htwice. reflexivity.
  - unfold Worker.local_messages.
    destruct (Worker.found_system_message ms); simpl; apply Hkeep.
Qed.

(** * Further properties of teardown, the calendar and the notifications *)

(** X9.  Teardown stops the playwright driver, or schedules its stop, in
    exactly one situation: the instance holds a browser handle and a driver
    handle, and either an event loop is running or the synchronous close of
    the browser returned.  A failed close leaves the driver running, and so
    does a missing browser handle. *)
Theorem driver_stopped_only_after_browser :
  forall (rt : Teardown.Runtime) (done : list Teardown.Action) (self : Sidekick),
    existsb is_stop
      (skipn (length done) (snd (fst (Teardown.cleanup rt done self))))
    = match browser self, playwright self with
      | Some b, Some _ =>
          Teardown.loop_running rt
          || match Teardown.asyncio_run rt done (Teardown.BrowserClose b) with
             | Ok _ => true
             | Raise _ => false
             end
      | _, _ => false
      end
    /\ firstn (length done) (snd (fst (Teardown.cleanup rt done self))) = done.
Proof.
  intros rt done self. unfold Teardown.cleanup.
  assert (Hskip : forall added : list Teardown.Action,
             skipn (length done) (done ++ added) = added)
    by (intro added; rewrite skipn_app, skipn_all, Nat.sub_diag; reflexivity).
  assert (Hfirst : forall added : list Teardown.Action,
             firstn (length done) (done ++ added) = done)
    by (intro added; rewrite firstn_app, firstn_all, Nat.sub_diag, app_nil_r;
        reflexivity).
  destruct (browser self) as [b|].
  - destruct (Teardown.loop_running rt).
    + destruct (playwright self) as [p|]; simpl;
        rewrite <- ?app_assoc, Hskip, Hfirst; split; reflexivity.
    + destruct (Teardown.asyncio_run rt done (Teardown.BrowserClose b)) as [[]|e];
        [destruct (playwright self) as [p|]|destruct (playwright self)]; simpl;
        rewrite <- ?app_assoc, Hskip, Hfirst; split; reflexivity.
  - simpl. rewrite <- (app_nil_r done) at 2 4. rewrite Hskip, Hfirst.
    split; reflexivity.
Qed.

Lemma prefix_append (a b : string) : String.prefix a (a +++ b) = true.
Proof.
  induction a as [|c a IH]; simpl.
  - destruct b; reflexivity.
  - destruct (ascii_dec c c); [exact IH | congruence].
Qed.

(** X10.  Once the calendar service is built, [create_calendar_event]
    returns a text whatever the API does, and the text starts with
    "Event created: " exactly when the insert request succeeded. *)
Theorem create_calendar_event_reports :
  forall (g : Calendar.Google) (summary start_iso end_iso description : string)
         (calendar_id : option string) (timezone : string),
    Calendar._get_calendar_service g = Ok tt ->
    exists text,
      Calendar.create_calendar_event g summary start_iso end_iso description
        calendar_id timezone = Ok text
      /\ String.prefix "Event created: " text =
         match Calendar.events_insert g
                 (str_or calendar_id (Calendar.env_calendar_id g))
                 {| Calendar.body_summary := summary;
                    Calendar.body_description := description;
                    Calendar.body_start := (start_iso, timezone);
                    Calendar.body_end := (end_iso, timezone) |} with
         | Ok _ => true
         | Raise _ => false
         end.
Proof.
  intros g summary start_iso end_iso description calendar_id timezone Hservice.
  unfold Calendar.create_calendar_event. rewrite Hservice.
  destruct (Calendar.events_insert g _ _) as [link|[]];
    eexists; (split; [reflexivity|]);
    solve [apply prefix_append | vm_compute; reflexivity].
Qed.

Lemma create_calendar_event_reports_witness :
  exists text,
    Calendar.create_calendar_event Examples.unauthorized
      "Standup" "2025-05-21T09:00:00" "2025-05-21T09:15:00" EmptyString None "UTC"
    = Ok text
    /\ String.prefix "Event created: " text = false.
Proof.
  apply (create_calendar_event_reports Examples.unauthorized
           "Standup" "2025-05-21T09:00:00" "2025-05-21T09:15:00" EmptyString None "UTC").
  reflexivity.
Defined.

Lemma event_lines_complete (events : list Calendar.CalendarEvent) :
  if forallb complete events
  then exists lines,
         Calendar.event_lines events = Ok lines /\ length lines = length events
  else exists key, Calendar.event_lines events = Raise (KeyError key).
Proof.
  induction events as [|evt events IH]; simpl.
  - exists []. split; reflexivity.
  - unfold complete at 1, Calendar.event_line.
    destruct (Calendar.start evt) as [s|]; [|simpl; eauto].
    destruct (Calendar.summary evt) as [title|]; [|simpl; eauto]. simpl.
    destruct (forallb complete events).
    + destruct IH as (lines & -> & Hlen). eexists. split; [reflexivity|].
      simpl. congruence.
    + destruct IH as (key & ->). eauto.
Qed.

(** X11.  With the service built and the list request answered,
    [list_upcoming_events] returns a text exactly when every listed event
    has a start and a summary: then it returns one line per event, joined by
    newlines (or the fixed text for an empty list); otherwise it raises a
    [KeyError]. *)
Theorem list_upcoming_events_needs_complete_events :
  forall (g : Calendar.Google) (calendar_id : option string) (max_results : Z)
         (events : list Calendar.CalendarEvent),
    Calendar._get_calendar_service g = Ok tt ->
    Calendar.events_list g (str_or calendar_id (Calendar.env_calendar_id g))
      (Calendar.utcnow_isoformat g +++ "Z") max_results = Ok (Some events) ->
    if forallb complete events
    then exists lines,
           length lines = length events
           /\ Calendar.list_upcoming_events g calendar_id max_results =
              Ok (match events with
                  | [] => "No upcoming events found."%string
                  | _ :: _ => String.concat nl lines
                  end)
    else exists key,
           Calendar.list_upcoming_events g calendar_id max_results = Raise (KeyError key).
Proof.
  intros g calendar_id max_results events Hservice Hlist.
  unfold Calendar.list_upcoming_events. rewrite Hservice, Hlist.
  pose proof (event_lines_complete events) as H.
  destruct (forallb complete events).
  - destruct H as (lines & Hlines & Hlen). exists lines. split; [exact Hlen|].
    destruct events; [reflexivity|]. rewrite Hlines. reflexivity.
  - destruct H as (key & Hkey). exists key.
    destruct events; [simpl in Hkey; discriminate|]. rewrite Hkey. reflexivity.
Qed.

Lemma list_upcoming_events_needs_complete_events_witness :
  exists key,
    Calendar.list_upcoming_events Examples.untitled None 5 = Raise (KeyError key).
Proof.
  apply (list_upcoming_events_needs_complete_events Examples.untitled None 5
           [ {| Calendar.start :=
                  Some {| Calendar.dateTime := Some "2025-05-21T09:00:00+00:00"%string;
                          Calendar.date := None |};
                Calendar.summary := None |} ]);
    reflexivity.
Defined.

(** X12.  The calendar both functions address: an empty [calendar_id] is
    treated as a missing one; a missing one stands for the configured
    calendar, and for "primary" when none is configured. *)
Theorem calendar_id_defaults :
  forall (g : Calendar.Google) (summary start_iso end_iso description timezone : string)
         (max_results : Z),
    Calendar.create_calendar_event g summary start_iso end_iso description
      (Some EmptyString) timezone
    = Calendar.create_calendar_event g summary start_iso end_iso description
        None timezone
    /\ Calendar.list_upcoming_events g (Some EmptyString) max_results
       = Calendar.list_upcoming_events g None max_results
    /\ Calendar.create_calendar_event g summary start_iso end_iso description
         None timezone
       = Calendar.create_calendar_event g summary start_iso end_iso description
           (Some (match Calendar.GOOGLE_CALENDAR_ID g with
                  | Some (String c rest) => String c rest
                  | Some EmptyString => EmptyString
                  | None => "primary"%string
                  end)) timezone
    /\ Calendar.list_upcoming_events g None max_results
       = Calendar.list_upcoming_events g
           (Some (match Calendar.GOOGLE_CALENDAR_ID g with
                  | Some (String c rest) => String c rest
                  | Some EmptyString => EmptyString
                  | None => "primary"%string
                  end)) max_results.
Proof.
  intros g summary start_iso end_iso description timezone max_results.
  unfold Calendar.create_calendar_event, Calendar.list_upcoming_events,
    Calendar.env_calendar_id.
  destruct (Calendar.GOOGLE_CALENDAR_ID g) as [[|c rest]|]; repeat split.
Qed.

(** X13.  [push] sends nothing and answers with the configuration error
    when the topic is unset or empty.  With a topic it sends one request, to
    the server's URL followed by the topic, with the text as body, and
    answers "success" whatever status the server returned. *)
Theorem push_reports_success_for_any_status :
  forall (env : Notify.Ntfy) (text : string),
    (truthy (str_or (Notify.NTFY_TOPIC env) EmptyString) = false ->
     Notify.push env text = ([], Ok "error: NTFY_TOPIC not configured"%string))
    /\ (forall topic status,
          Notify.NTFY_TOPIC env = Some topic ->
          truthy topic = true ->
          Notify.requests_post env (Notify.ntfy_server env +++ "/" +++ topic) text
          = Ok status ->
          Notify.push env text =
          ([Notify.Post (Notify.ntfy_server env +++ "/" +++ topic) text],
           Ok "success"%string)).
Proof.
  intros env text. unfold Notify.push. split.
  - destruct (Notify.NTFY_TOPIC env) as [[|c rest]|]; simpl; auto; discriminate.
  - intros topic status -> Htopic Hpost.
    destruct topic as [|c rest]; [discriminate|]. rewrite Hpost. reflexivity.
Qed.

Lemma push_reports_success_for_any_status_witness :
  Notify.push Cases.configured "Task finished" =
  ([Notify.Post "https://ntfy.sh/sidekick-alerts" "Task finished"],
   Ok "success"%string).
Proof.
  apply (proj2 (push_reports_success_for_any_status Cases.configured "Task finished")
           "sidekick-alerts"%string 500);
    reflexivity.
Defined.

(** * Further properties of the calendar form *)

Lemma split_len_colons (t : string) :
  EventForm.split_len t
  = S (length (filter (Ascii.eqb ":"%char) (list_ascii_of_string t))).
Proof.
  induction t as [|c t IH]; [reflexivity|].
  cbn [EventForm.split_len list_ascii_of_string filter].
  rewrite (Ascii.eqb_sym ":"%char c).
  destruct (Ascii.eqb c ":"%char); cbn [length]; rewrite IH; reflexivity.
Qed.

(** X14.  [make_iso] gives the empty string when the date or the time is
    missing.  Otherwise it gives the date, a "T", the time as typed and,
    unless the time holds exactly two colons, the seconds ":00". *)
Theorem make_iso_completes_the_time :
  forall d t : string,
    EventForm.make_iso d t =
      match d, t with
      | EmptyString, _ | _, EmptyString => EmptyString
      | _, _ =>
          d +++ "T" +++ t +++
          (if Nat.eqb (length (filter (Ascii.eqb ":"%char) (list_ascii_of_string t))) 2
           then EmptyString else ":00")
      end.
Proof.
  intros d t. unfold EventForm.make_iso.
  destruct d as [|cd d']; [reflexivity|].
  destruct t as [|ct t']; [reflexivity|].
  cbn [truthy negb orb].
  rewrite split_len_colons.
  change (Nat.eqb (S ?n) 3) with (Nat.eqb n 2).
  destruct (Nat.eqb _ 2); [rewrite append_nil_r|]; reflexivity.
Qed.

Lemma make_iso_completes_the_time_witness :
  EventForm.make_iso "2025-05-20" "15:00" = "2025-05-20T15:00:00"%string
  /\ EventForm.make_iso "2025-05-20" "15:00:30" = "2025-05-20T15:00:30"%string
  /\ EventForm.make_iso "2025-05-20" "15" = "2025-05-20T15:00"%string
  /\ EventForm.make_iso "2025-05-20" "15:00:30:10" = "2025-05-20T15:00:30:10:00"%string
  /\ EventForm.make_iso "2025-05-20" EmptyString = EmptyString
  /\ EventForm.make_iso EmptyString "15:00" = EmptyString.
Proof.
  refine (conj (make_iso_completes_the_time "2025-05-20" "15:00") _).
  refine (conj (make_iso_completes_the_time "2025-05-20" "15:00:30") _).
  refine (conj (make_iso_completes_the_time "2025-05-20" "15") _).
  refine (conj (make_iso_completes_the_time "2025-05-20" "15:00:30:10") _).
  refine (conj (make_iso_completes_the_time "2025-05-20" EmptyString) _).
  exact (make_iso_completes_the_time EmptyString "15:00").
Defined.

(** X15.  [prepare_datetimes] always hands back the two [make_iso]
    strings.  Its message is empty while a date or a time is missing.
    Otherwise both strings are parsed and compared: the message is the
    parsing error when one of them does not parse or when one carries a UTC
    offset and the other does not (the comparison raises), the ordering
    error when the end is not after the start, and empty when it is. *)
Theorem prepare_datetimes_message :
  forall (fromisoformat : string -> Result EventForm.Datetime)
         (start_date start_time end_date end_time : string),
    EventForm.prepare_datetimes fromisoformat start_date start_time end_date end_time
    = (EventForm.make_iso start_date start_time,
       EventForm.make_iso end_date end_time,
       match EventForm.make_iso start_date start_time,
             EventForm.make_iso end_date end_time with
       | EmptyString, _ | _, EmptyString => EmptyString
       | start_iso, end_iso =>
           match fromisoformat start_iso, fromisoformat end_iso with
           | Ok s, Ok e =>
               match EventForm.utcoffset s, EventForm.utcoffset e with
               | None, None =>
                   if EventForm.wall e <=? EventForm.wall s
                   then "Error: End must be after start. Please correct the dates/times."%string
                   else EmptyString
               | Some os, Some oe =>
                   if EventForm.wall e - oe <=? EventForm.wall s - os
                   then "Error: End must be after start. Please correct the dates/times."%string
                   else EmptyString
               | _, _ =>
                   "Error parsing date/time. Ensure times are HH:MM or HH:MM:SS and dates are YYYY-MM-DD."%string
               end
           | _, _ =>
               "Error parsing date/time. Ensure times are HH:MM or HH:MM:SS and dates are YYYY-MM-DD."%string
           end
       end).
Proof.
  intros fromisoformat start_date start_time end_date end_time.
  unfold EventForm.prepare_datetimes, EventForm.le_datetime.
  set (a := EventForm.make_iso start_date start_time).
  set (b := EventForm.make_iso end_date end_time).
  destruct a as [|ca a']; [reflexivity|].
  destruct b as [|cb b']; [reflexivity|].
  cbn [truthy andb].
  destruct (fromisoformat (String ca a')) as [s|x]; [|reflexivity].
  destruct (fromisoformat (String cb b')) as [e|x]; [|reflexivity].
  destruct (EventForm.utcoffset s), (EventForm.utcoffset e); reflexivity.
Qed.

(** An end with a UTC offset against a start without one: the comparison
    raises, and the form shows the parsing error. *)
Lemma prepare_datetimes_mixed_offsets :
  EventForm.prepare_datetimes Cases.offset_clock
    "2025-05-20" "15:00" "2025-05-20" "16:00:00+05:00"
  = ("2025-05-20T15:00:00", "2025-05-20T16:00:00+05:00:00",
     "Error parsing date/time. Ensure times are HH:MM or HH:MM:SS and dates are YYYY-MM-DD.")%string
  /\ EventForm.prepare_datetimes Cases.hour_of
       "2025-05-20" "15:00" "2025-05-20" "16:00"
     = ("2025-05-20T15:00:00", "2025-05-20T16:00:00", EmptyString)%string
  /\ EventForm.prepare_datetimes Cases.hour_of
       "2025-05-20" "15:00" "2025-05-20" "15:00"
     = ("2025-05-20T15:00:00", "2025-05-20T15:00:00",
        "Error: End must be after start. Please correct the dates/times.")%string.
Proof.
  repeat split.
Qed.

(** X16.  [create_event_with_validation] answers with its own message for
    an event without a title, without a start or an end, with a datetime
    that does not parse, with an end that is not after its start, or, when
    the zone is unknown, with one datetime carrying a UTC offset and the
    other not.  The comparison is of the wall-clock readings when the zone
    is known, and of the datetimes as parsed otherwise.  In every other case
    its result is the result of [create_calendar_event] on the same
    arguments and the configured calendar; when the calendar service can be
    built it returns a text for every input. *)
Theorem form_validates_before_the_calendar :
  forall (fromisoformat : string -> Result EventForm.Datetime)
         (ZoneInfo : string -> Result unit)
         (g : Calendar.Google) (summary start_iso end_iso desc tz : string),
    EventForm.create_event_with_validation fromisoformat ZoneInfo g
      summary start_iso end_iso desc tz
    = (let calendar :=
         Calendar.create_calendar_event g summary start_iso end_iso desc
           (Some (match Calendar.GOOGLE_CALENDAR_ID g with
                  | Some id => id
                  | None => "primary"%string
                  end)) tz in
       let late := Ok "Error: End must be after start. Please correct the inputs."%string in
       let invalid := Ok "Error validating date/time values."%string in
       match summary, start_iso, end_iso with
       | EmptyString, _, _ => Ok "Error: Please provide an event title."%string
       | _, EmptyString, _ | _, _, EmptyString =>
           Ok "Error: Start and end datetimes must be prepared (choose dates and times)."%string
       | _, _, _ =>
           match fromisoformat start_iso, fromisoformat end_iso with
           | Ok s, Ok e =>
               match ZoneInfo tz with
               | Ok _ =>
                   if EventForm.wall e <=? EventForm.wall s then late else calendar
               | Raise _ =>
                   match EventForm.utcoffset s, EventForm.utcoffset e with
                   | None, None =>
                       if EventForm.wall e <=? EventForm.wall s then late else calendar
                   | Some os, Some oe =>
                       if EventForm.wall e - oe <=? EventForm.wall s - os
                       then late else calendar
                   | _, _ => invalid
                   end
               end
           | _, _ => invalid
           end
       end)
    /\ (Calendar._get_calendar_service g = Ok tt ->
        exists text,
          EventForm.create_event_with_validation fromisoformat ZoneInfo g
            summary start_iso end_iso desc tz = Ok text).
Proof.
  intros fromisoformat ZoneInfo g summary start_iso end_iso desc tz.
  split.
  - unfold EventForm.create_event_with_validation, EventForm.validation_error,
      EventForm.compared, EventForm.in_zone, EventForm.le_datetime,
      Calendar.env_calendar_id.
    destruct summary as [|c summary']; [reflexivity|].
    destruct start_iso as [|cs start']; [reflexivity|].
    destruct end_iso as [|ce end']; [reflexivity|].
    cbn [truthy negb orb].
    destruct (fromisoformat (String cs start')) as [s|x]; [|reflexivity].
    destruct (fromisoformat (String ce end')) as [e|x];
      [|destruct (ZoneInfo tz); reflexivity].
    destruct (ZoneInfo tz) as [[]|x].
    + destruct (_ <=? _); reflexivity.
    + destruct (EventForm.utcoffset s), (EventForm.utcoffset e); try reflexivity.
      * destruct (_ <=? _); reflexivity.
      * destruct (_ <=? _); reflexivity.
  - intro Hservice. unfold EventForm.create_event_with_validation.
    destruct (EventForm.validation_error fromisoformat ZoneInfo summary
                start_iso end_iso tz) as [message|]; [eauto|].
    apply create_calendar_event_total. exact Hservice.
Qed.

Lemma form_validates_before_the_calendar_witness :
  EventForm.create_event_with_validation Cases.hour_of Cases.no_zone
    Examples.unauthorized "Standup" "2025-05-20T15:00:00" "2025-05-20T16:00:00"
    EmptyString "Mars/Olympus"
  = Ok "Calendar API error: 401 Unauthorized"%string
  /\ exists text,
       EventForm.create_event_with_validation Cases.hour_of Cases.no_zone
         Examples.unauthorized "Standup" "2025-05-20T15:00:00" "2025-05-20T16:00:00"
         EmptyString "Mars/Olympus" = Ok text.
Proof.
  split; [reflexivity|].
  apply (proj2 (form_validates_before_the_calendar
                  Cases.hour_of Cases.no_zone Examples.unauthorized
                  "Standup" "2025-05-20T15:00:00" "2025-05-20T16:00:00"
                  EmptyString "Mars/Olympus")).
  reflexivity.
Defined.

(** With an unknown zone, a start without offset and an end with one, the
    form answers that the values cannot be validated, and the calendar is
    not called. *)
Lemma form_rejects_mixed_offsets :
  EventForm.create_event_with_validation Cases.offset_clock Cases.no_zone
    Examples.no_token "Standup" "2025-05-20T15:00:00" "2025-05-20T16:00:00+05:00"
    EmptyString "Mars/Olympus"
  = Ok "Error validating date/time values."%string
  /\ EventForm.create_event_with_validation Cases.offset_clock (fun _ => Ok tt)
       Examples.working "Standup" "2025-05-20T15:00:00" "2025-05-20T16:00:00+05:00"
       EmptyString "Europe/Paris"
     = Ok "Event created: https://calendar.example/event"%string.
Proof.
  split; reflexivity.
Qed.

(** X17.  When the time zone of the form is not known to the system, the
    two checks agree: for an event with a title and all four date and time
    fields, [create_event_with_validation] passes the strings of
    [prepare_datetimes] on to the calendar exactly when
    [prepare_datetimes] showed no message. *)
Theorem form_checks_agree_without_zone :
  forall (fromisoformat : string -> Result EventForm.Datetime)
         (ZoneInfo : string -> Result unit)
         (summary start_date start_time end_date end_time tz : string) (x : Exn),
    truthy summary = true ->
    truthy (EventForm.make_iso start_date start_time) = true ->
    truthy (EventForm.make_iso end_date end_time) = true ->
    EventForm.in_zone fromisoformat ZoneInfo tz
      (EventForm.make_iso start_date start_time) = Raise x ->
    (snd (EventForm.prepare_datetimes fromisoformat
            start_date start_time end_date end_time) = EmptyString
     <-> EventForm.validation_error fromisoformat ZoneInfo summary
           (EventForm.make_iso start_date start_time)
           (EventForm.make_iso end_date end_time) tz = None).
Proof.
  intros fromisoformat ZoneInfo summary start_date start_time end_date end_time tz x
    Hsummary Hstart Hend Hzone.
  unfold EventForm.prepare_datetimes, EventForm.validation_error, EventForm.compared.
  set (a := EventForm.make_iso start_date start_time) in *.
  set (b := EventForm.make_iso end_date end_time) in *.
  cbn [snd]. rewrite Hsummary, Hstart, Hend, Hzone. cbn [negb orb andb].
  destruct (fromisoformat a) as [s|]; [|split; discriminate].
  destruct (fromisoformat b) as [e|]; [|split; discriminate].
  destruct (EventForm.le_datetime e s) as [[]|]; split; auto; discriminate.
Qed.

Lemma form_checks_agree_without_zone_witness :
  snd (EventForm.prepare_datetimes Cases.hour_of
         "2025-05-20" "15:00" "2025-05-20" "16:00") = EmptyString
  <-> EventForm.validation_error Cases.hour_of Cases.no_zone "Standup"
        (EventForm.make_iso "2025-05-20" "15:00")
        (EventForm.make_iso "2025-05-20" "16:00") "Mars/Olympus" = None.
Proof.
  apply (form_checks_agree_without_zone Cases.hour_of Cases.no_zone
           "Standup" "2025-05-20" "15:00" "2025-05-20" "16:00" "Mars/Olympus"
           (KeyError "Mars/Olympus"));
    reflexivity.
Defined.

(** The prompts one node sends to the evaluator models. *)
Lemma run_node_quotes_reply self now keeps n st log r :
  run_node self now keeps n st = (log, r) ->
  (n = EVALUATOR -> exists text, index_last (messages st) = Ok (AIMessage text [])) ->
  Forall quotes_reply log.
Proof.
  destruct n; simpl; unfold worker, tool_node, evaluator, eval_result,
    evaluator_fallback; unfold_m; intros H Hready.
  - destruct (Worker.found_system_message (messages st)); simpl in H.
    + inversion H; constructor.
    + destruct (worker_llm_with_tools self _); inversion H;
        repeat constructor.
  - destruct (index_last (messages st)) as [[]|]; simpl in H;
      inversion H; subst; try constructor.
    rewrite app_nil_r. clear. induction tool_calls; simpl; repeat constructor; auto.
  - destruct (Hready eq_refl) as (text & Hlast). rewrite Hlast in H. simpl in H.
    assert (Hq : forall e,
               e = InvokeStructuredEvaluator (evaluator_messages st text)
               \/ e = InvokeRawEvaluator (evaluator_messages st text) ->
               quotes_reply e)
      by (intros e [-> | ->]; exists st, text; auto).
    destruct (evaluator_llm_with_output self _); simpl in H.
    + inversion H; subst. repeat constructor; apply Hq; auto.
    + destruct (evaluator_llm self _); simpl in H; inversion H; subst;
        repeat constructor; apply Hq; auto.
  - inversion H; constructor.
Qed.

(** Where the worker reaches its model, the Critic is shown no tool output
    of its own accord: in a run whose messages hold no system message, every
    prompt sent to an evaluator model quotes, as the last response, an
    assistant message without tool calls. *)
Lemma critic_quotes_a_reply_without_system_message self now keeps steps :
  forall n st,
    Worker.found_system_message (messages st) = false ->
    (n = EVALUATOR -> exists text, index_last (messages st) = Ok (AIMessage text [])) ->
    Forall quotes_reply (fst (run_graph self now keeps steps n st)).
Proof.
  induction steps as [|k IH]; intros n st Hno Hready.
  - destruct n; constructor.
  - assert (Hend : n = END \/ n <> END) by (destruct n; auto; right; discriminate).
    destruct Hend as [->|Hn]; [constructor|].
    rewrite (run_graph_step _ _ _ _ _ _ Hn).
    destruct (run_node self now keeps n st) as [nlog [st'|e]] eqn:Hnode;
      pose proof (run_node_quotes_reply _ _ _ _ _ _ _ Hnode Hready) as Hlog.
    2:{ simpl. constructor; [exact I | exact Hlog]. }
    destruct (next_node n st') as [n'|e] eqn:Hnext.
    2:{ simpl. constructor; [exact I | exact Hlog]. }
    assert (Hno' : Worker.found_system_message (messages st') = false)
      by (rewrite (proj2 (run_node_appends _ _ _ _ _ _ _ Hnode)); exact Hno).
    assert (Hready' : n' = EVALUATOR ->
                      exists text, index_last (messages st') = Ok (AIMessage text [])).
    { intros ->. destruct n; try congruence.
      - simpl in Hnode. rewrite (worker_without_system_message _ _ _ Hno) in Hnode.
        unfold_m. simpl in Hnext. unfold worker_router in Hnext.
        destruct (worker_llm_with_tools self _) as [reply|]; simpl in Hnode;
          inversion Hnode; subst; clear Hnode.
        simpl in Hnext. rewrite index_last_snoc in Hnext.
        simpl. rewrite index_last_snoc.
        unfold message_of_reply in *.
        destruct (reply_tool_calls reply); [eauto | discriminate].
      - simpl in Hnext. discriminate.
      - destruct (next_after_evaluator _ _ Hnext) as [? | [? _]]; discriminate. }
    specialize (IH n' st' Hno' Hready').
    destruct (run_graph self now keeps k n' st') as [log' out].
    simpl. constructor; [exact I|]. apply Forall_app. split; assumption.
Qed.

(** The log of a turn of the chat box is an instance. *)
Lemma chat_turn_quotes_a_reply :
  Forall quotes_reply
    (fst (ainvoke Examples.searching_sidekick Examples.clock false recursion_limit None
            (superstep_state (Text "What is the capital of France?") Examples.criteria))).
Proof.
  apply critic_quotes_a_reply_without_system_message; [reflexivity | discriminate].
Qed.

(** The model calls of one node: one for a worker that finds no system
    message, none otherwise. *)
Lemma run_node_calls self now keeps n st log r :
  run_node self now keeps n st = (log, r) ->
  worker_calls log =
  (if Node_eqb WORKER n && negb (Worker.found_system_message (messages st))
   then 1 else 0)%nat.
Proof.
  destruct n; simpl; unfold worker, tool_node, evaluator, eval_result,
    evaluator_fallback; unfold_m; intro H.
  - destruct (Worker.found_system_message (messages st)); simpl in H.
    + inversion H; reflexivity.
    + destruct (worker_llm_with_tools self _); inversion H; reflexivity.
  - destruct (index_last (messages st)) as [[]|]; simpl in H;
      inversion H; subst; try reflexivity.
    rewrite app_nil_r. unfold worker_calls. induction tool_calls; simpl; auto.
  - destruct (index_last (messages st)) as [last|]; simpl in H;
      [|inversion H; reflexivity].
    destruct (evaluator_llm_with_output self _); simpl in H;
      [inversion H; reflexivity|].
    destruct (evaluator_llm self _); simpl in H; inversion H; reflexivity.
  - inversion H; reflexivity.
Qed.

(** X18.  In a run whose messages hold no system message, every execution
    of the worker node makes exactly one call to the worker model, also in
    a run that fails or runs out of steps. *)
Theorem one_model_call_per_worker_entry :
  forall (self : Sidekick) (now : string) (keeps : bool)
         (steps : nat) (n : Node) (st : State),
    Worker.found_system_message (messages st) = false ->
    worker_calls (fst (run_graph self now keeps steps n st))
    = entries WORKER (fst (run_graph self now keeps steps n st)).
Proof.
  intros self now keeps. induction steps as [|k IH]; intros n st Hno.
  - destruct n; reflexivity.
  - assert (Hend : n = END \/ n <> END) by (destruct n; auto; right; discriminate).
    destruct Hend as [->|Hn]; [reflexivity|].
    rewrite (run_graph_step _ _ _ _ _ _ Hn).
    destruct (run_node self now keeps n st) as [nlog [st'|e]] eqn:Hnode;
      pose proof (run_node_calls _ _ _ _ _ _ _ Hnode) as Hcalls;
      pose proof (run_node_log _ _ _ _ _ _ _ WORKER Hnode) as Hentries;
      rewrite Hno in Hcalls; simpl in Hcalls; rewrite andb_true_r in Hcalls.
    2:{ simpl. rewrite entries_enter, Hentries.
        change (worker_calls nlog = ((if Node_eqb WORKER n then 1 else 0) + 0)%nat).
        rewrite Hcalls. clear - Hn; destruct n; try congruence; reflexivity. }
    destruct (next_node n st') as [n'|e] eqn:Hnext.
    2:{ simpl. rewrite entries_enter, Hentries.
        change (worker_calls nlog = ((if Node_eqb WORKER n then 1 else 0) + 0)%nat).
        rewrite Hcalls. clear - Hn; destruct n; try congruence; reflexivity. }
    assert (Hno' : Worker.found_system_message (messages st') = false)
      by (rewrite (proj2 (run_node_appends _ _ _ _ _ _ _ Hnode)); exact Hno).
    specialize (IH n' st' Hno').
    destruct (run_graph self now keeps k n' st') as [log' out] eqn:Hrest.
    simpl in *. rewrite entries_enter, entries_app, Hentries.
    change (worker_calls (nlog ++ log')
            = ((if Node_eqb WORKER n then 1 else 0) + (0 + entries WORKER log'))%nat).
    rewrite worker_calls_app, Hcalls, IH. clear - Hn; destruct n; try congruence; reflexivity.
Qed.

Lemma one_model_call_per_worker_entry_witness :
  worker_calls
    (fst (run_graph Examples.searching_sidekick Examples.clock true 22 WORKER
            (Examples.state_of [HumanMessage "What is the capital of France?"])))
  = entries WORKER
      (fst (run_graph Examples.searching_sidekick Examples.clock true 22 WORKER
              (Examples.state_of [HumanMessage "What is the capital of France?"]))).
Proof.
  apply (one_model_call_per_worker_entry
           Examples.searching_sidekick Examples.clock true 22 WORKER).
  reflexivity.
Defined.
